(** * MCQ Generator: the option synthesizer and the quiz session of app.py

    A shallow embedding of [src/app.py].  The script is a Streamlit page: it
    is executed from top to bottom once per user interaction, against a
    session dictionary that survives between executions.  The embedding has

    - Python strings as [string] (characters are code points below 256),
      with [str.strip] written out;
    - the question-answering chain as an abstract state machine [qa_run],
      whose calls may answer or raise;
    - [random.shuffle] as the Fisher-Yates loop of CPython over a stream of
      raw draws;
    - the session dictionary as a record of optional entries, one per key
      the script uses;
    - one execution of the script as a computation in a state monad with
      exceptions, [st.stop] and a fuel bound on the [while] loop.

    Two facts about Streamlit shape the model.  The session dictionary is
    mutated in place, so what a run has stored before an exception or
    [st.stop] ends it stays stored.  A button reports a click only in the
    run that the click caused, and only under the key it was drawn with. *)

From Stdlib Require Import ZArith Ascii String Floats Uint63.
From stdpp Require Import base list strings pretty.

Open Scope string_scope.
Open Scope list_scope.
Open Scope Z_scope.
Open Scope nat_scope.

(** ** Python strings *)

Module PyStr.

(** [str.isspace] on one character, for the code points below 256:
    U+0009..U+000D, U+001C..U+001F, U+0020, U+0085 and U+00A0. *)
Definition isspace (a : ascii) : bool :=
  let n := nat_of_ascii a in
  ((9 <=? n) && (n <=? 13)) || ((28 <=? n) && (n <=? 32))
  || (n =? 133) || (n =? 160).

Fixpoint lstrip (s : string) : string :=
  match s with
  | EmptyString => EmptyString
  | String a s' => if isspace a then lstrip s' else s
  end.

(** Trailing whitespace is dropped from the right end inwards: a
    character stays when something stays after it, or when it is not
    whitespace itself. *)
Fixpoint rstrip (s : string) : string :=
  match s with
  | EmptyString => EmptyString
  | String a s' =>
      match rstrip s' with
      | EmptyString => if isspace a then EmptyString else String a EmptyString
      | r => String a r
      end
  end.

(** [s.strip()] *)
Definition strip (s : string) : string := rstrip (lstrip s).

(** [len(s)] *)
Definition len (s : string) : nat := String.length s.

(** A string made of whitespace only (the empty string included). *)
Fixpoint blank (s : string) : bool :=
  match s with
  | EmptyString => true
  | String a s' => isspace a && blank s'
  end.

End PyStr.

Example strip_examples :
  PyStr.strip "  a b  " = "a b" /\ PyStr.strip " Paris" = "Paris"
  /\ PyStr.strip "   " = "" /\ PyStr.strip "" = "".
Proof. repeat split. Qed.

(** ** random.shuffle *)

(** The generator is a stream of raw draws; [randbelow n] takes the next
    draw modulo [n], so that every value below [n] can come out. *)
Definition Rng : Type := nat -> nat.

Definition randbelow (n : nat) (g : Rng) : nat * Rng :=
  (g 0 `mod` n, fun k => g (S k)).

(** [x[i], x[j] = x[j], x[i]].  Both indices are in range when the shuffle
    calls it ([j <= i < len(x)]); outside the range Python raises and the
    list is not changed. *)
Definition swap {A} (i j : nat) (x : list A) : list A :=
  match x !! i, x !! j with
  | Some a, Some b => <[i:=b]> (<[j:=a]> x)
  | _, _ => x
  end.

(** [for i in reversed(range(1, len(x))): j = randbelow(i + 1); swap].
    [shuffle_from i] runs the iterations [i, i-1, ..., 1]. *)
Fixpoint shuffle_from {A} (i : nat) (x : list A) (g : Rng) : list A * Rng :=
  match i with
  | 0 => (x, g)
  | S i' =>
      let (j, g') := randbelow (i + 1) g in
      shuffle_from i' (swap i j x) g'
  end.

Definition shuffle {A} (x : list A) (g : Rng) : list A * Rng :=
  shuffle_from (length x - 1) x g.

(** ** Outcomes of a computation *)

Inductive Exn : Set :=
| OracleError        (* qa_chain.run raised *)
| IndexingError      (* loading, splitting, embedding or indexing raised *)
| KeyError           (* a missing key of st.session_state was read *)
| ZeroDivisionError.

Inductive Res (A : Type) : Type :=
| Ok (a : A)         (* ran to its end *)
| Raise (e : Exn)    (* an exception left the code *)
| Stop               (* st.stop() ended the script run *)
| OutOfFuel.         (* the while loop was still running when fuel ran out *)

Arguments Ok {A} a.
Arguments Raise {A} e.
Arguments Stop {A}.
Arguments OutOfFuel {A}.

(** ** The answering chain and generate_mcq *)

(** What one call of [qa_chain.run] does: an answer, or an exception. *)
Inductive Reply : Set :=
| Answer (text : string)
| Failure.

Section Synthesizer.

(** The chain is any state machine: a call takes the prompt, replies and
    moves to a next state. *)
Context {Chain : Type}.
Variable qa_run : Chain -> string -> Reply * Chain.

Definition distractor_prompt (question : string) : string :=
  "Provide a plausible but incorrect answer for this question: " +:+ question
  +:+ ". " +:+ "Avoid repeating previous options.".

(** The acceptance test of line 135:
    [fake_answer not in options and len(fake_answer.strip()) > 0]. *)
Definition accepted (options : list string) (fake_answer : string) : bool :=
  bool_decide (fake_answer ∉ options)
  && bool_decide (0 < PyStr.len (PyStr.strip fake_answer)).

(** [while len(options) < 4: ...]; one unit of fuel per iteration, that is
    per call of the chain. *)
Fixpoint distractor_loop (fuel : nat) (question : string)
    (options : list string) (c : Chain) : Res (list string) * Chain :=
  if bool_decide (length options < 4) then
    match fuel with
    | 0 => (OutOfFuel, c)
    | S fuel' =>
        match qa_run c (distractor_prompt question) with
        | (Answer fake_answer, c') =>
            if accepted options fake_answer
            then distractor_loop fuel' question (options ++ [fake_answer]) c'
            else distractor_loop fuel' question options c'
        | (Failure, c') => (Raise OracleError, c')
        end
    end
  else (Ok options, c).

Definition generate_mcq (fuel : nat) (question correct_answer : string)
    (c : Chain) (g : Rng) : Res (list string) * Chain * Rng :=
  match distractor_loop fuel question [correct_answer] c with
  | (Ok options, c') =>
      let (options', g') := shuffle options g in (Ok options', c', g')
  | (Raise e, c') => (Raise e, c', g)
  | (Stop, c') => (Stop, c', g)
  | (OutOfFuel, c') => (OutOfFuel, c', g)
  end.

End Synthesizer.

(** Two concrete chains, used to run the code on examples. *)

(** A chain that replays a fixed list of replies and raises once the list
    is used up. *)
Definition scripted_run (c : list Reply) (prompt : string) : Reply * list Reply :=
  match c with
  | [] => (Failure, [])
  | r :: c' => (r, c')
  end.

(** A chain that gives the same answer to every prompt. *)
Definition constant_run (text : string) (c : unit) (prompt : string) : Reply * unit :=
  (Answer text, tt).

(** A generator whose draws are all zero. *)
Definition zero_rng : Rng := fun _ => 0.


(** ** The page, the session dictionary and the world of one script run *)

(** Keys of the three buttons: "generate", f"submit{n}", f"next{n}". *)
Inductive Key : Set :=
| KGenerate
| KSubmit (n : nat)
| KNext (n : nat).

Global Instance Key_eq_dec : EqDecision Key.
Proof. solve_decision. Defined.

(** What lines 94-194 put on the page.  The static head of the page (the
    style sheet, the title, the introduction and the uploader of lines
    17-90) is the same in every run and is not recorded. *)
Inductive Element : Type :=
| Success (text : string)
| Error (text : string)
| Write (text : string)
| Markdown (html : string)
| Radio (options : list string)
| Button (key : Key).

(** An entry of st.session_state["questions"]:
    [(question, options, correct_answer)]. *)
Definition Question : Type := string * list string * string.

(** st.session_state, one optional entry per key ([None]: key absent). *)
Record Session {Chain : Type} : Type := mkSession {
  pdf_processed : option bool;
  qa_chain : option Chain;
  questions : option (list Question);
  score : option Z;
  current_question : option nat;
}.
Arguments Session : clear implicits.
Arguments mkSession {Chain}.

(** The session, the temporary file on disk, the random generator, and the
    page rendered so far. *)
Record World {Chain : Type} : Type := mkWorld {
  session : Session Chain;
  temp_file : bool;
  rng : Rng;
  page : list Element;
}.
Arguments World : clear implicits.
Arguments mkWorld {Chain}.

(** What writing the upload to disk does. *)
Inductive SaveOutcome : Set :=
| Saved
| OpenFailed (e : string)     (* open() raised e: nothing was created *)
| WriteFailed (e : string).   (* the file was created, f.write raised e *)

(** The user's interaction that triggers a run, and what the outside world
    does during it. *)
Record Env {Chain : Type} : Type := mkEnv {
  uploaded_file : bool;
  save_outcome : SaveOutcome;
  index_outcome : option Chain;   (* lines 108-120: the chain, or an exception *)
  clicked : option Key;           (* the one button whose click caused the run *)
  radio_choice : nat;             (* index selected in st.radio *)
}.
Arguments Env : clear implicits.
Arguments mkEnv {Chain}.

(** ** State and exception monad *)

Definition M (Chain : Type) (A : Type) : Type := World Chain -> Res A * World Chain.

Definition ret {Chain A} (a : A) : M Chain A := fun w => (Ok a, w).

Definition bind {Chain A B} (m : M Chain A) (k : A -> M Chain B) : M Chain B :=
  fun w =>
    match m w with
    | (Ok a, w') => k a w'
    | (Raise e, w') => (Raise e, w')
    | (Stop, w') => (Stop, w')
    | (OutOfFuel, w') => (OutOfFuel, w')
    end.

Notation "x <- m ;; k" := (bind m (fun x => k))
  (at level 20, m at level 99, k at level 200, right associativity, only parsing).
Notation "m ;; k" := (bind m (fun _ => k))
  (at level 100, k at level 200, right associativity, only parsing).

Definition raise {Chain A} (e : Exn) : M Chain A := fun w => (Raise e, w).
Definition stop {Chain A} : M Chain A := fun w => (Stop, w).

Definition get_session {Chain} : M Chain (Session Chain) := fun w => (Ok (session w), w).

Definition modify_session {Chain} (f : Session Chain -> Session Chain) : M Chain unit :=
  fun w => (Ok tt, mkWorld (f (session w)) (temp_file w) (rng w) (page w)).

Definition set_temp_file {Chain} (b : bool) : M Chain unit :=
  fun w => (Ok tt, mkWorld (session w) b (rng w) (page w)).

Definition emit {Chain} (e : Element) : M Chain unit :=
  fun w => (Ok tt, mkWorld (session w) (temp_file w) (rng w) (page w ++ [e])).

(** [st.session_state[key]] for reading: KeyError when the key is absent. *)
Definition read {Chain A} (field : Session Chain -> option A) : M Chain A :=
  fun w =>
    match field (session w) with
    | Some a => (Ok a, w)
    | None => (Raise KeyError, w)
    end.

Definition set_pdf_processed {Chain} (b : bool) (s : Session Chain) : Session Chain :=
  mkSession (Some b) (qa_chain s) (questions s) (score s) (current_question s).
Definition set_qa_chain {Chain} (c : Chain) (s : Session Chain) : Session Chain :=
  mkSession (pdf_processed s) (Some c) (questions s) (score s) (current_question s).
Definition set_questions {Chain} (qs : list Question) (s : Session Chain) : Session Chain :=
  mkSession (pdf_processed s) (qa_chain s) (Some qs) (score s) (current_question s).
Definition set_score {Chain} (n : Z) (s : Session Chain) : Session Chain :=
  mkSession (pdf_processed s) (qa_chain s) (questions s) (Some n) (current_question s).
Definition set_current_question {Chain} (n : nat) (s : Session Chain) : Session Chain :=
  mkSession (pdf_processed s) (qa_chain s) (questions s) (score s) (Some n).

(** [for _ in range(n): body] *)
Fixpoint for_range {Chain} (n : nat) (body : M Chain unit) : M Chain unit :=
  match n with
  | 0 => ret tt
  | S n' => body ;; for_range n' body
  end.

(** ** Number formatting *)

(** [int / int] and [float * int] go through doubles.  Both operands of the
    division are converted exactly as long as they are below 2^53, which a
    score and a number of questions are. *)
Definition int_to_float (n : Z) : float :=
  if (n <? 0)%Z then PrimFloat.opp (PrimFloat.of_uint63 (Uint63.of_Z (- n)))
  else PrimFloat.of_uint63 (Uint63.of_Z n).

(** [n / d] rounded to the nearest integer, ties to even. *)
Definition div_half_even (n d : Z) : Z :=
  let q := (n / d)%Z in
  let r := (n mod d)%Z in
  if (2 * r <? d)%Z then q
  else if (d <? 2 * r)%Z then (q + 1)%Z
  else if Z.even q then q else (q + 1)%Z.

(** The value [m * 2^e] in hundredths, correctly rounded. *)
Definition hundredths (m : positive) (e : Z) : Z :=
  if (0 <=? e)%Z then (Z.pos m * 100 * 2 ^ e)%Z
  else div_half_even (Z.pos m * 100) (2 ^ (- e)).

Definition fixed2 (negative : bool) (h : Z) : string :=
  (if negative then "-" else "")
  +:+ pretty (h / 100)%Z +:+ "."
  +:+ (if (h mod 100 <? 10)%Z then "0" else "") +:+ pretty (h mod 100)%Z.

(** [f"{x:.2f}"] *)
Definition format_2f (x : float) : string :=
  match Prim2SF x with
  | S754_zero s => fixed2 s 0
  | S754_infinity s => if s then "-inf" else "inf"
  | S754_nan => "nan"
  | S754_finite s m e => fixed2 s (hundredths m e)
  end.

(** [(score / total_q) * 100]; [None] is the ZeroDivisionError of a
    division by 0. *)
Definition score_percentage (score : Z) (total_q : nat) : option float :=
  if bool_decide (total_q = 0) then None
  else Some (PrimFloat.mul
               (PrimFloat.div (int_to_float score) (int_to_float (Z.of_nat total_q)))
               (int_to_float 100)).

(** ** The script *)

Section Script.

Context {Chain : Type}.
Variable qa_run : Chain -> string -> Reply * Chain.

Local Abbreviation M := (M Chain).

Definition question_prompt : string :=
  "Create a multiple-choice question based on the document content. Provide only the question.".

Definition answer_prompt (question : string) : string :=
  "Provide the correct answer for this question: " +:+ question +:+ ". "
  +:+ "Provide only the correct answer.".

(** [st.session_state["qa_chain"].run(prompt)]: the chain moves on whether
    it answers or raises. *)
Definition chain_run (prompt : string) : M string :=
  fun w =>
    match qa_chain (session w) with
    | None => (Raise KeyError, w)
    | Some c =>
        let (reply, c') := qa_run c prompt in
        let w' := mkWorld (set_qa_chain c' (session w)) (temp_file w) (rng w) (page w) in
        match reply with
        | Answer text => (Ok text, w')
        | Failure => (Raise OracleError, w')
        end
    end.

(** [generate_mcq(question, correct_answer, st.session_state["qa_chain"])];
    every call has [fuel] iterations of its loop at its disposal. *)
Definition call_generate_mcq (fuel : nat) (question correct_answer : string)
    : M (list string) :=
  fun w =>
    match qa_chain (session w) with
    | None => (Raise KeyError, w)
    | Some c =>
        let '(r, c', g') := generate_mcq qa_run fuel question correct_answer c (rng w) in
        (r, mkWorld (set_qa_chain c' (session w)) (temp_file w) g' (page w))
    end.

(** [st.session_state["questions"].append(q)] *)
Definition append_question (q : Question) : M unit :=
  qs <- read questions ;;
  modify_session (set_questions (qs ++ [q])).

(** Lines 94-125. *)
Definition upload_section (env : Env Chain) : M unit :=
  if uploaded_file env then
    s <- get_session ;;
    if bool_decide (pdf_processed s = None) then
      match save_outcome env with
      | Saved =>
          set_temp_file true ;;
          emit (Success "File uploaded and saved successfully!")
      | OpenFailed e =>
          emit (Error ("Error saving file: " +:+ e)) ;; stop
      | WriteFailed e =>
          set_temp_file true ;;
          emit (Error ("Error saving file: " +:+ e)) ;; stop
      end ;;
      match index_outcome env with
      | None => raise IndexingError
      | Some c =>
          modify_session (set_qa_chain c) ;;
          modify_session (set_pdf_processed true) ;;
          emit (Success "PDF processed successfully! Click 'Generate MCQ' to start.")
      end
    else ret tt
  else ret tt.

(** Lines 150-159, the body of [for _ in range(4)]. *)
Definition generate_one (fuel : nat) : M unit :=
  question <- chain_run question_prompt ;;
  correct_answer <- chain_run (answer_prompt question) ;;
  options <- call_generate_mcq fuel question correct_answer ;;
  append_question (question, options, correct_answer).

(** Lines 141-159.  The button is drawn, and can only have been clicked,
    when [pdf_processed] is set. *)
Definition generate_section (fuel : nat) (env : Env Chain) : M unit :=
  s <- get_session ;;
  if bool_decide (pdf_processed s = Some true) then
    emit (Button KGenerate) ;;
    if bool_decide (clicked env = Some KGenerate) then
      s <- get_session ;;
      if bool_decide (questions s = None) then
        modify_session (set_questions []) ;;
        modify_session (set_score 0) ;;
        modify_session (set_current_question 0) ;;
        for_range 4 (generate_one fuel)
      else ret tt
    else ret tt
  else ret tt.

(** Lines 192-194. *)
Fixpoint review (i : nat) (qs : list Question) : M unit :=
  match qs with
  | [] => ret tt
  | (question, _, correct_answer) :: qs' =>
      emit (Write ("**Question " +:+ pretty (i + 1) +:+ ":** " +:+ question)) ;;
      emit (Write ("**Correct Answer:** " +:+ correct_answer)) ;;
      review (S i) qs'
  end.

(** The f-string of line 186. *)
Definition score_line (pct : float) : string :=
  "<div class='centered-text' style='font-weight:bold;'>Your Score: "
  +:+ format_2f pct +:+ "%</div>".

(** Lines 162-194. *)
Definition show_section (env : Env Chain) : M unit :=
  s <- get_session ;;
  if bool_decide (questions s = None) then ret tt
  else
    current_q <- read current_question ;;
    qs <- read questions ;;
    if bool_decide (current_q < length qs) then
      match qs !! current_q with
      | None => ret tt
      | Some (question, options, correct_answer) =>
          emit (Write ("**Question " +:+ pretty (current_q + 1) +:+ ":** " +:+ question)) ;;
          emit (Radio options) ;;
          let selected_option := options !! radio_choice env in
          emit (Button (KSubmit current_q)) ;;
          (if bool_decide (clicked env = Some (KSubmit current_q)) then
             if bool_decide (selected_option = Some correct_answer) then
               n <- read score ;;
               modify_session (set_score (n + 1)) ;;
               emit (Markdown "<span class='correct-answer'>Correct!</span>")
             else emit (Markdown "<span class='wrong-answer'>Wrong!</span>")
           else ret tt) ;;
          emit (Button (KNext current_q)) ;;
          (if bool_decide (clicked env = Some (KNext current_q)) then
             n <- read current_question ;;
             modify_session (set_current_question (n + 1))
           else ret tt)
      end
    else
      let total_q := length qs in
      n <- read score ;;
      match score_percentage n total_q with
      | None => raise ZeroDivisionError
      | Some pct =>
          emit (Markdown "<div class='centered-text'>Quiz Completed!</div>") ;;
          emit (Markdown (score_line pct)) ;;
          emit (Markdown "<div class='centered-text'>Review:</div>") ;;
          review 0 qs
      end.

(** Lines 197-198. *)
Definition cleanup_section : M unit :=
  fun w => if temp_file w then set_temp_file false w else (Ok tt, w).

Definition script (fuel : nat) (env : Env Chain) : M unit :=
  upload_section env ;;
  generate_section fuel env ;;
  show_section env ;;
  cleanup_section.

(** One run of the script: the page starts empty. *)
Definition run (fuel : nat) (env : Env Chain) (w : World Chain) : Res unit * World Chain :=
  script fuel env (mkWorld (session w) (temp_file w) (rng w) []).

(** The runs of a session, one per interaction. *)
Fixpoint runs (fuel : nat) (envs : list (Env Chain)) (w : World Chain) : World Chain :=
  match envs with
  | [] => w
  | env :: envs' => runs fuel envs' (snd (run fuel env w))
  end.

End Script.

(** A new session: nothing stored, no file on disk, nothing on the page. *)
Definition new_world {Chain} (g : Rng) : World Chain :=
  mkWorld (mkSession None None None None None) false g [].

Definition click {Chain} (k : Key) (choice : nat) : Env Chain :=
  mkEnv true Saved None (Some k) choice.

Definition upload {Chain} (c : Chain) : Env Chain :=
  mkEnv true Saved (Some c) None 0.

(** A run caused by a new selection in the radio widget: no button fires. *)
Definition choose {Chain} (choice : nat) : Env Chain :=
  mkEnv true Saved None None choice.

(** * Properties *)

(** ** Strings *)

Module PyStrFacts.
Import PyStr.

Lemma lstrip_blank s : blank s = true -> lstrip s = "".
Proof.
  induction s as [|a s IH]; simpl; [done|].
  intros [Ha Hs]%andb_true_iff. rewrite Ha. auto.
Qed.

Lemma lstrip_not_blank s :
  blank s = false -> exists a t, lstrip s = String a t /\ isspace a = false.
Proof.
  induction s as [|a s IH]; simpl; [done|].
  destruct (isspace a) eqn:Ha; simpl; eauto.
Qed.

Lemma append_String a (s t : string) : String a s +:+ t = String a (s +:+ t).
Proof. reflexivity. Qed.

(** [lstrip] and [rstrip] remove a blank prefix and a blank suffix. *)
Lemma lstrip_prefix s : exists l, blank l = true /\ s = l +:+ lstrip s.
Proof.
  induction s as [|a s (l & Hl & IH)]; simpl; [by exists ""|].
  destruct (isspace a) eqn:Ha.
  - exists (String a l). simpl. rewrite Ha, Hl. split; [done|].
    by rewrite append_String, <- IH.
  - by exists "".
Qed.

Lemma rstrip_suffix s : exists r, blank r = true /\ s = rstrip s +:+ r.
Proof.
  induction s as [|a s (r & Hr & IH)]; simpl; [by exists ""|].
  destruct (rstrip s) as [|b t] eqn:Hs.
  - change ("" +:+ r) with r in IH. subst r. destruct (isspace a) eqn:Ha.
    + exists (String a s). simpl. by rewrite Ha, Hr.
    + exists s. split; [done|]. by rewrite append_String.
  - exists r. split; [done|]. by rewrite append_String, <- IH.
Qed.

Lemma rstrip_keeps_first a t : isspace a = false -> rstrip (String a t) <> "".
Proof. intros Ha. simpl. rewrite Ha. by destruct (rstrip t). Qed.

(** Stripping leaves nothing exactly when the string is whitespace only. *)
Lemma strip_empty_iff s : len (strip s) = 0 <-> blank s = true.
Proof.
  unfold strip, len. split.
  - intros H. destruct (blank s) eqn:Hb; [done|].
    destruct (lstrip_not_blank s Hb) as (a & t & Hl & Ha).
    rewrite Hl in H. pose proof (rstrip_keeps_first a t Ha) as Hne.
    by destruct (rstrip (String a t)).
  - intros Hb. by rewrite (lstrip_blank s Hb).
Qed.

Lemma strip_nonempty_iff s : 0 < len (strip s) <-> blank s = false.
Proof.
  pose proof (strip_empty_iff s) as [H1 H2]. destruct (blank s).
  - split; [|done]. intros H. rewrite H2 in H by done. lia.
  - split; [done|]. intros _. destruct (len (strip s)); [|lia].
    by discriminate H1.
Qed.

End PyStrFacts.

(** ** The shuffle is a permutation *)

Lemma insert_Permutation {A} (l : list A) (i : nat) (x y : A) :
  l !! i = Some x -> <[i:=y]> l ≡ₚ y :: delete i l.
Proof.
  revert i. induction l as [|z l IH]; intros [|i] H; simplify_eq/=; [done|].
  rewrite (IH i H). apply Permutation_swap.
Qed.

Lemma swap_Permutation {A} (i j : nat) (x : list A) : swap i j x ≡ₚ x.
Proof.
  unfold swap. destruct (x !! i) as [a|] eqn:Hi; [|done].
  destruct (x !! j) as [b|] eqn:Hj; [|done].
  destruct (decide (i = j)) as [->|Hne].
  - assert (a = b) as -> by congruence.
    by rewrite !(list_insert_id x j b Hi).
  - assert (Hi' : <[j:=a]> x !! i = Some a) by (by rewrite list_lookup_insert_ne).
    rewrite (insert_Permutation _ _ _ _ Hi').
    pose proof (delete_Permutation _ _ _ Hi') as H1.
    rewrite (insert_Permutation _ _ _ a Hj) in H1 at 1.
    apply Permutation_cons_inv in H1. rewrite <- H1.
    symmetry. by apply delete_Permutation.
Qed.

Lemma shuffle_from_Permutation {A} (i : nat) (x : list A) (g : Rng) :
  (shuffle_from i x g).1 ≡ₚ x.
Proof.
  revert x g. induction i as [|i IH]; intros x g; [done|].
  cbn [shuffle_from]. destruct (randbelow (S i + 1) g) as [j g'].
  rewrite IH. apply swap_Permutation.
Qed.

Lemma shuffle_Permutation {A} (x : list A) (g : Rng) : (shuffle x g).1 ≡ₚ x.
Proof. apply shuffle_from_Permutation. Qed.

(** ** The distractor loop *)

Section SynthesizerFacts.

Context {Chain : Type}.
Variable qa_run : Chain -> string -> Reply * Chain.

Lemma accepted_spec options fake :
  accepted options fake = true <->
  ((fake ∉ options) /\ 0 < PyStr.len (PyStr.strip fake)).
Proof.
  unfold accepted. rewrite andb_true_iff, !bool_decide_eq_true. done.
Qed.

(** The loop as equations. *)
Lemma distractor_loop_done fuel question options c :
  4 <= length options ->
  distractor_loop qa_run fuel question options c = (Ok options, c).
Proof.
  intros H. destruct fuel; simpl; rewrite bool_decide_eq_false_2; auto; lia.
Qed.

Lemma distractor_loop_accept fuel question options c fake c' :
  length options < 4 ->
  qa_run c (distractor_prompt question) = (Answer fake, c') ->
  accepted options fake = true ->
  distractor_loop qa_run (S fuel) question options c
  = distractor_loop qa_run fuel question (options ++ [fake]) c'.
Proof.
  intros Hlen Hrun Hacc. cbn [distractor_loop].
  rewrite bool_decide_eq_true_2 by done. by rewrite Hrun, Hacc.
Qed.

Lemma distractor_loop_reject fuel question options c fake c' :
  length options < 4 ->
  qa_run c (distractor_prompt question) = (Answer fake, c') ->
  accepted options fake = false ->
  distractor_loop qa_run (S fuel) question options c
  = distractor_loop qa_run fuel question options c'.
Proof.
  intros Hlen Hrun Hacc. cbn [distractor_loop].
  rewrite bool_decide_eq_true_2 by done. by rewrite Hrun, Hacc.
Qed.

Lemma distractor_loop_failure fuel question options c c' :
  length options < 4 ->
  qa_run c (distractor_prompt question) = (Failure, c') ->
  distractor_loop qa_run (S fuel) question options c = (Raise OracleError, c').
Proof.
  intros Hlen Hrun. cbn [distractor_loop].
  rewrite bool_decide_eq_true_2 by done. by rewrite Hrun.
Qed.

(** What the loop returns: the options it started from, followed by
    accepted answers, four in all. *)
Lemma distractor_loop_Ok fuel question options c opts c' :
  length options <= 4 -> NoDup options ->
  distractor_loop qa_run fuel question options c = (Ok opts, c') ->
  exists added,
    opts = options ++ added /\ length opts = 4 /\ NoDup opts
    /\ Forall (fun o => 0 < PyStr.len (PyStr.strip o)) added.
Proof.
  revert options c. induction fuel as [|fuel IH]; intros options c Hlen Hnd Hloop.
  - simpl in Hloop. case_bool_decide; simplify_eq.
    exists []. rewrite app_nil_r. repeat split; auto. lia.
  - destruct (decide (length options < 4)) as [Hlt|Hge].
    + destruct (qa_run c (distractor_prompt question)) as [[fake|] c1] eqn:Hrun.
      * destruct (accepted options fake) eqn:Hacc.
        -- rewrite (distractor_loop_accept _ _ _ _ _ _ Hlt Hrun Hacc) in Hloop.
           apply accepted_spec in Hacc as [Hnotin Hne].
           apply IH in Hloop as (added & -> & H4 & Hnd' & Hall).
           ++ exists (fake :: added). rewrite <- app_assoc in *. simpl in *.
              repeat split; auto.
           ++ rewrite length_app. simpl. lia.
           ++ apply NoDup_app. repeat split; auto.
              ** intros x Hx Hx'. apply list_elem_of_singleton in Hx'. by subst.
              ** apply NoDup_singleton.
        -- rewrite (distractor_loop_reject _ _ _ _ _ _ Hlt Hrun Hacc) in Hloop.
           by apply IH in Hloop.
      * rewrite (distractor_loop_failure _ _ _ _ _ Hlt Hrun) in Hloop. done.
    + rewrite distractor_loop_done in Hloop by lia. simplify_eq.
      exists []. rewrite app_nil_r. repeat split; auto. lia.
Qed.

(** More fuel does not change a run that ended. *)
Lemma distractor_loop_more_fuel fuel fuel' question options c r c' :
  distractor_loop qa_run fuel question options c = (r, c') ->
  r <> OutOfFuel -> fuel <= fuel' ->
  distractor_loop qa_run fuel' question options c = (r, c').
Proof.
  revert fuel' options c. induction fuel as [|fuel IH]; intros fuel' options c Hloop Hr Hle.
  - simpl in Hloop. case_bool_decide; simplify_eq.
    apply distractor_loop_done. lia.
  - destruct fuel' as [|fuel']; [lia|].
    cbn [distractor_loop] in *. case_bool_decide; [|done].
    destruct (qa_run c (distractor_prompt question)) as [[fake|] c1]; [|done].
    destruct (accepted options fake); apply IH; auto; lia.
Qed.

(** An exception leaves the loop only from a call of the chain. *)
Lemma distractor_loop_Raise fuel question options c e c' :
  distractor_loop qa_run fuel question options c = (Raise e, c') ->
  e = OracleError /\ exists c0, qa_run c0 (distractor_prompt question) = (Failure, c').
Proof.
  revert options c. induction fuel as [|fuel IH]; intros options c Hloop.
  - simpl in Hloop. case_bool_decide; simplify_eq.
  - cbn [distractor_loop] in Hloop. case_bool_decide; [|done].
    destruct (qa_run c (distractor_prompt question)) as [[fake|] c1] eqn:Hrun.
    + destruct (accepted options fake); eauto.
    + simplify_eq. eauto.
Qed.

Lemma distractor_loop_not_Stop fuel question options c c' :
  distractor_loop qa_run fuel question options c <> (Stop, c').
Proof.
  revert options c. induction fuel as [|fuel IH]; intros options c Hloop.
  - simpl in Hloop. case_bool_decide; simplify_eq.
  - cbn [distractor_loop] in Hloop. case_bool_decide; [|done].
    destruct (qa_run c (distractor_prompt question)) as [[fake|] c1] eqn:Hrun; [|done].
    destruct (accepted options fake); by eapply IH.
Qed.

(** [generate_mcq] returns the loop's list, shuffled. *)
Lemma generate_mcq_Ok fuel question correct_answer c g opts c' g' :
  generate_mcq qa_run fuel question correct_answer c g = (Ok opts, c', g') ->
  exists options,
    distractor_loop qa_run fuel question [correct_answer] c = (Ok options, c')
    /\ opts ≡ₚ options.
Proof.
  unfold generate_mcq.
  destruct (distractor_loop qa_run fuel question [correct_answer] c) as [[options| | |] c1];
    try done.
  pose proof (shuffle_Permutation options g) as Hp.
  destruct (shuffle options g) as [options' g1]. intros; simplify_eq. eauto.
Qed.

Lemma filter_eq_absent (x : string) (l : list string) :
  x ∉ l -> filter (fun o => o = x) l = [].
Proof.
  induction l as [|y l IH]; [done|].
  intros [Hxy Hx]%not_elem_of_cons. rewrite filter_cons.
  rewrite decide_False by (intros ->; done). auto.
Qed.

Lemma filter_eq_NoDup (x : string) (l : list string) :
  NoDup l -> x ∈ l -> length (filter (fun o => o = x) l) = 1.
Proof.
  induction 1 as [|y l Hy Hnd IH]; [by intros ?%elem_of_nil|].
  rewrite filter_cons. intros [->|Hx]%elem_of_cons.
  - rewrite decide_True by done. simpl. by rewrite filter_eq_absent.
  - rewrite decide_False by (intros ->; done). auto.
Qed.

End SynthesizerFacts.

(** ** The script, section by section *)

(** What the code guarantees of a stored question: four distinct options,
    the correct answer among them, every other option non-blank. *)
Definition well_formed (q : Question) : Prop :=
  let '(_, options, correct_answer) := q in
  length options = 4 /\ NoDup options /\ correct_answer ∈ options
  /\ forall o, o ∈ options -> o <> correct_answer -> 0 < PyStr.len (PyStr.strip o).

(** The entries of the session other than the chain and the questions, and
    the rest of the world other than the generator. *)
Definition same_quiz_keys {Chain} (s s' : Session Chain) : Prop :=
  questions s' = questions s /\ score s' = score s
  /\ current_question s' = current_question s.

(** The submit handler of lines 170-172 adds to the score in a run: the
    click is on the current question's button and the radio selection
    equals the correct answer. *)
Definition scores {Chain} (env : Env Chain) (qs : list Question) (i : nat) : bool :=
  match qs !! i with
  | Some (_, options, correct_answer) =>
      bool_decide (clicked env = Some (KSubmit i))
      && bool_decide (options !! radio_choice env = Some correct_answer)
  | None => false
  end.

(** The next handler of lines 178-179 fires in a run. *)
Definition advances {Chain} (env : Env Chain) (qs : list Question) (i : nat) : bool :=
  bool_decide (i < length qs) && bool_decide (clicked env = Some (KNext i)).

(** The session states a user can bring about: those of a new session and
    those left by a run, however the run ended. *)
Inductive reachable {Chain} (qa_run : Chain -> string -> Reply * Chain)
    : World Chain -> Prop :=
| reachable_new g : reachable qa_run (new_world g)
| reachable_run fuel env w :
    reachable qa_run w -> reachable qa_run (snd (run qa_run fuel env w)).

(** What holds of the session between runs. *)
Definition session_inv {Chain} (s : Session Chain) : Prop :=
  (pdf_processed s = None \/ (pdf_processed s = Some true /\ is_Some (qa_chain s)))
  /\ match questions s with
     | None => True
     | Some qs =>
         pdf_processed s = Some true
         /\ exists i n, current_question s = Some i /\ score s = Some n
                       /\ i <= length qs <= 4 /\ (0 <= n)%Z
                       /\ Forall well_formed qs
     end.

(** Membership in a page built by appending. *)
Ltac in_page :=
  rewrite ?elem_of_app, ?elem_of_cons; intuition auto.

Section ScriptFacts.

Context {Chain : Type}.
Variable qa_run : Chain -> string -> Reply * Chain.

Lemma generate_mcq_well_formed fuel question correct_answer c g opts c' g' :
  generate_mcq qa_run fuel question correct_answer c g = (Ok opts, c', g') ->
  well_formed (question, opts, correct_answer).
Proof.
  intros (options & Hloop & Hp)%generate_mcq_Ok.
  apply distractor_loop_Ok in Hloop as (added & -> & Hlen & Hnd & Hall);
    [|simpl; lia|apply NoDup_singleton].
  unfold well_formed. split; [by rewrite Hp|]. split; [by rewrite Hp|]. split.
  - rewrite Hp. simpl. left.
  - intros o Ho Hne. rewrite Hp in Ho. simpl in Ho.
    apply elem_of_cons in Ho as [->|Ho]; [done|].
    rewrite Forall_forall in Hall. auto.
Qed.

(** One round of the generation loop: a question is appended, or the
    round fails and the list is as before. *)
Lemma generate_one_spec fuel w r w' qs0 :
  questions (session w) = Some qs0 ->
  generate_one qa_run fuel w = (r, w') ->
  pdf_processed (session w') = pdf_processed (session w)
  /\ score (session w') = score (session w)
  /\ current_question (session w') = current_question (session w)
  /\ temp_file w' = temp_file w /\ page w' = page w
  /\ (is_Some (qa_chain (session w)) -> is_Some (qa_chain (session w')))
  /\ match r with
     | Ok _ => exists q, questions (session w') = Some (qs0 ++ [q]) /\ well_formed q
     | _ => questions (session w') = Some qs0
     end.
Proof.
  destruct w as [[pdf ch qs sc cur] tf g pg]. simpl. intros -> H.
  unfold generate_one, bind, chain_run, call_generate_mcq, append_question,
    bind, read, modify_session in H. simpl in H.
  destruct ch as [c|]; [|by simplify_eq/=].
  destruct (qa_run c question_prompt) as [[question|] c1]; simpl in H;
    [|by simplify_eq/=].
  destruct (qa_run c1 (answer_prompt question)) as [[correct_answer|] c2]; simpl in H;
    [|by simplify_eq/=].
  destruct (generate_mcq qa_run fuel question correct_answer c2 g) as [[ro c3] g3] eqn:Hg.
  simpl in H. destruct ro as [options| | |]; simplify_eq/=; repeat split; eauto.
  eexists; split; [done|]. by eapply generate_mcq_well_formed.
Qed.

Lemma generate_loop_spec fuel n w r w' qs0 :
  questions (session w) = Some qs0 ->
  for_range n (generate_one qa_run fuel) w = (r, w') ->
  pdf_processed (session w') = pdf_processed (session w)
  /\ score (session w') = score (session w)
  /\ current_question (session w') = current_question (session w)
  /\ temp_file w' = temp_file w /\ page w' = page w
  /\ (is_Some (qa_chain (session w)) -> is_Some (qa_chain (session w')))
  /\ exists added,
       questions (session w') = Some (qs0 ++ added) /\ Forall well_formed added
       /\ match r with
          | Ok _ => length added = n
          | _ => length added < n
          end.
Proof.
  revert w qs0. induction n as [|n IH]; intros w qs0 Hq H.
  - simpl in H. unfold ret in H. simplify_eq. repeat split; auto.
    exists []. rewrite app_nil_r. auto.
  - cbn [for_range] in H. unfold bind in H.
    destruct (generate_one qa_run fuel w) as [r1 w1] eqn:H1.
    destruct (generate_one_spec _ _ _ _ _ Hq H1)
      as (Hp & Hs & Hc & Ht & Hg & Hch & Hr1).
    destruct r1 as [[]| | |]; simplify_eq.
    + destruct Hr1 as (q & Hq1 & Hwf).
      destruct (IH _ _ Hq1 H) as (Hp' & Hs' & Hc' & Ht' & Hg' & Hch' & added & Hq' & Hall & Hr).
      split; [congruence|]. split; [congruence|]. split; [congruence|].
      split; [congruence|]. split; [congruence|]. split; [auto|].
      exists (q :: added). rewrite Hq', <- app_assoc. repeat split; auto.
      destruct r; simpl; lia.
    + repeat split; auto. exists []. rewrite app_nil_r. repeat split; auto. simpl; lia.
    + repeat split; auto. exists []. rewrite app_nil_r. repeat split; auto. simpl; lia.
    + repeat split; auto. exists []. rewrite app_nil_r. repeat split; auto. simpl; lia.
Qed.

(** *** Sections that leave the quiz alone *)

Lemma review_spec i qs (w : World Chain) :
  exists lines,
    review i qs w = (Ok tt, mkWorld (session w) (temp_file w) (rng w) (page w ++ lines)).
Proof.
  revert i w. induction qs as [|[[question options] correct_answer] qs IH]; intros i w.
  - exists []. destruct w. by rewrite app_nil_r.
  - cbn [review]. unfold bind, emit. simpl.
    edestruct IH as [lines ->]. simpl. eexists. by rewrite <- !app_assoc.
Qed.

(** The upload section either leaves the session as it is, or stores the
    chain and then the flag. *)
Lemma upload_section_spec env (w : World Chain) r w' :
  upload_section env w = (r, w') ->
  rng w' = rng w
  /\ (session w' = session w
      \/ exists c, r = Ok tt /\ pdf_processed (session w) = None
                   /\ session w' = set_pdf_processed true (set_qa_chain c (session w))).
Proof.
  destruct w as [s tf g pg], env as [up sv ix ck rc].
  unfold upload_section, bind, get_session, set_temp_file, emit, stop, raise,
    modify_session, ret. simpl.
  intros H. repeat (case_match || case_bool_decide); simplify_eq/=; eauto 10.
Qed.

Lemma upload_section_skip env (w : World Chain) :
  pdf_processed (session w) <> None -> upload_section env w = (Ok tt, w).
Proof.
  intros H. unfold upload_section, bind, get_session, ret. simpl.
  destruct (uploaded_file env); [|done]. by rewrite bool_decide_eq_false_2.
Qed.

(** The generate section does nothing to the session unless the button
    was clicked, the document was processed and no quiz exists. *)
Lemma generate_section_idle fuel env w :
  pdf_processed (session w) <> Some true \/ clicked env <> Some KGenerate
  \/ questions (session w) <> None ->
  exists pg, generate_section qa_run fuel env w
             = (Ok tt, mkWorld (session w) (temp_file w) (rng w) pg).
Proof.
  destruct w as [s tf g pg].
  unfold generate_section, bind, get_session, emit, ret. simpl.
  intros H. repeat case_bool_decide; eauto. by destruct H as [?|[?|?]].
Qed.

(** When it fires, the three keys are stored first and the questions
    appended one by one. *)
Lemma generate_section_fires fuel env w r w' :
  pdf_processed (session w) = Some true -> clicked env = Some KGenerate ->
  questions (session w) = None ->
  generate_section qa_run fuel env w = (r, w') ->
  pdf_processed (session w') = Some true
  /\ score (session w') = Some 0%Z
  /\ current_question (session w') = Some 0
  /\ temp_file w' = temp_file w
  /\ (is_Some (qa_chain (session w)) -> is_Some (qa_chain (session w')))
  /\ exists qs,
       questions (session w') = Some qs /\ Forall well_formed qs
       /\ match r with
          | Ok _ => length qs = 4
          | _ => length qs < 4
          end.
Proof.
  destruct w as [[pdf ch qs0 sc cur] tf g pg]. simpl. intros -> Hck -> H.
  unfold generate_section, bind, get_session, emit, modify_session in H.
  cbn -[for_range] in H.
  rewrite !bool_decide_eq_true_2 in H by done.
  cbn -[for_range] in H.
  apply (generate_loop_spec _ _ _ _ _ []) in H; [|done].
  cbn -[for_range] in H.
  destruct H as (-> & -> & -> & -> & _ & Hch & added & -> & Hall & Hr).
  eauto 10.
Qed.

Lemma cleanup_section_spec (w : World Chain) :
  cleanup_section w = (Ok tt, mkWorld (session w) false (rng w) (page w)).
Proof. unfold cleanup_section, set_temp_file. by destruct w as [s [] g pg]. Qed.

(** *** The quiz section *)

Lemma score_percentage_spec n total :
  (total = 0 /\ score_percentage n total = None)
  \/ (0 < total /\ exists pct, score_percentage n total = Some pct).
Proof.
  unfold score_percentage. case_bool_decide; [by left|right]. split; [lia|eauto].
Qed.

Lemma show_section_spec env (w : World Chain) qs i n r w' :
  questions (session w) = Some qs ->
  current_question (session w) = Some i ->
  score (session w) = Some n ->
  show_section env w = (r, w') ->
  pdf_processed (session w') = pdf_processed (session w)
  /\ qa_chain (session w') = qa_chain (session w)
  /\ questions (session w') = Some qs
  /\ temp_file w' = temp_file w
  /\ current_question (session w') = Some (if advances env qs i then i + 1 else i)
  /\ score (session w') = Some (if scores env qs i then n + 1 else n)%Z
  /\ (r = Ok tt \/ (r = Raise ZeroDivisionError /\ qs = []))
  /\ (i < length qs ->
      Button (KSubmit i) ∈ page w' /\ Button (KNext i) ∈ page w')
  /\ (length qs <= i -> forall pct,
      score_percentage n (length qs) = Some pct -> Markdown (score_line pct) ∈ page w').
Proof.
  destruct w as [[pdf ch qs0 sc cur] tf g pg]. simpl. intros -> -> -> H.
  unfold show_section, bind, get_session, read in H. simpl in H.
  unfold advances, scores.
  destruct (decide (i < length qs)) as [Hlt|Hge].
  - rewrite (bool_decide_eq_true_2 _ Hlt) in *.
    unfold Question in *.
    destruct (qs !! i) as [[[question options] correct_answer]|] eqn:Hq;
      [|apply lookup_ge_None in Hq; lia].
    unfold bind, emit, modify_session, read, ret in H. simpl in H.
    repeat case_bool_decide; simplify_eq/=;
      repeat split; auto; try lia; in_page.
  - rewrite (bool_decide_eq_false_2 _ Hge) in *. unfold Question in *.
    destruct (qs !! i) as [[[question options] correct_answer]|] eqn:Hq;
      [apply lookup_lt_Some in Hq; lia|].
    cbn -[score_percentage] in H.
    destruct (score_percentage_spec n (length qs)) as [[H0 Hp]|[H0 [pct Hp]]];
      rewrite Hp in H.
    + unfold raise in H. simplify_eq/=. apply length_zero_iff_nil in H0.
      repeat split; auto; try lia. intros _ pct ?. congruence.
    + unfold bind, emit in H. simpl in H.
      match type of H with context [review 0 qs ?X] =>
        destruct (review_spec 0 qs X) as [lines Hl]; rewrite Hl in H end.
      simplify_eq/=. repeat split; auto; try lia.
      intros _ pct' Hp'. assert (pct' = pct) as -> by congruence. in_page.
Qed.

Lemma show_section_no_quiz env (w : World Chain) :
  questions (session w) = None -> show_section env w = (Ok tt, w).
Proof.
  intros H. unfold show_section, bind, get_session, ret. simpl.
  by rewrite H.
Qed.

(** *** A whole run *)

(** With a quiz in the session, a run is the quiz section followed by
    the clean-up. *)
Lemma run_with_quiz fuel env (w : World Chain) qs i n r w' :
  pdf_processed (session w) = Some true ->
  questions (session w) = Some qs ->
  current_question (session w) = Some i ->
  score (session w) = Some n ->
  run qa_run fuel env w = (r, w') ->
  pdf_processed (session w') = Some true
  /\ qa_chain (session w') = qa_chain (session w)
  /\ questions (session w') = Some qs
  /\ current_question (session w') = Some (if advances env qs i then i + 1 else i)
  /\ score (session w') = Some (if scores env qs i then n + 1 else n)%Z
  /\ ((r = Ok tt /\ temp_file w' = false) \/ (r = Raise ZeroDivisionError /\ qs = []))
  /\ (i < length qs ->
      Button (KSubmit i) ∈ page w' /\ Button (KNext i) ∈ page w')
  /\ (length qs <= i -> forall pct,
      score_percentage n (length qs) = Some pct -> Markdown (score_line pct) ∈ page w').
Proof.
  intros Hpdf Hqs Hi Hn Hrun. unfold run, script, bind in Hrun.
  rewrite upload_section_skip in Hrun by (simpl; congruence).
  match type of Hrun with context [generate_section qa_run fuel env ?X] =>
    destruct (generate_section_idle fuel env X) as [pg Hgen];
      [right; right; simpl; by rewrite Hqs|]
  end.
  rewrite Hgen in Hrun. clear Hgen. cbn [session temp_file rng] in Hrun.
  match type of Hrun with context [show_section env ?X] =>
    destruct (show_section env X) as [r3 w3] eqn:Hshow end.
  apply (show_section_spec _ _ qs i n) in Hshow; [|done..].
  cbn [session temp_file rng] in Hshow.
  destruct Hshow as (H1 & H2 & H3 & H4 & H5 & H6 & H7 & H8 & H9).
  destruct H7 as [->|[-> ->]].
  - rewrite cleanup_section_spec in Hrun. simplify_eq/=.
    split_and!; [congruence|done|done|done|done|by left|done|done].
  - simplify_eq/=.
    split_and!; [congruence|done|done|done|done|by right|done|done].
Qed.

(** Every run keeps the invariant, however it ends. *)
Lemma run_session_inv fuel env (w : World Chain) :
  session_inv (session w) -> session_inv (session (snd (run qa_run fuel env w))).
Proof.
  intros [Hpdf Hquiz].
  destruct (run qa_run fuel env w) as [r w'] eqn:Hrun. simpl.
  destruct (questions (session w)) as [qs|] eqn:Hqs.
  - destruct Hquiz as (Hp & i & n & Hi & Hn & Hle & Hn0 & Hwf).
    destruct (run_with_quiz _ _ _ _ _ _ _ _ Hp Hqs Hi Hn Hrun)
      as (H1 & H2 & H3 & H4 & H5 & _).
    split.
    + right. split; [done|]. rewrite H2. destruct Hpdf as [?|[_ ?]]; [congruence|done].
    + rewrite H3. split; [done|]. eexists _, _. repeat split; eauto; try lia.
      * unfold advances. repeat case_bool_decide; simpl; lia.
      * destruct (scores env qs i); lia.
  - unfold run, script, bind in Hrun.
    match type of Hrun with context [upload_section env ?X] =>
      destruct (upload_section env X) as [r1 w1] eqn:Hup end.
    apply upload_section_spec in Hup as [_ Hup]. cbn [session] in Hup.
    assert (session_inv (session w1) /\ questions (session w1) = None) as [Hinv1 Hq1].
    { destruct Hup as [->|(c & _ & Hnone & ->)];
        unfold session_inv, set_pdf_processed, set_qa_chain;
        cbn [pdf_processed qa_chain questions score current_question];
        rewrite Hqs; eauto 6. }
    clear Hup Hpdf Hquiz Hqs.
    destruct r1 as [[]| | |]; try (by simplify_eq).
    destruct (decide (pdf_processed (session w1) = Some true
                      /\ clicked env = Some KGenerate)) as [[Hp Hck]|Hidle].
    + destruct (generate_section qa_run fuel env w1) as [r2 w2] eqn:Hgen.
      destruct (generate_section_fires _ _ _ _ _ Hp Hck Hq1 Hgen)
        as (Hp2 & Hs2 & Hc2 & _ & Hch2 & qs & Hq2 & Hwf & Hlen).
      destruct Hinv1 as [[?|[_ Hch1]] _]; [congruence|].
      assert (session_inv (session w2)) as Hinv2.
      { split; [right; auto|]. rewrite Hq2. split; [done|].
        exists 0, 0%Z. repeat split; auto; try lia; destruct r2; lia. }
      destruct r2 as [[]| | |]; try (by simplify_eq).
      destruct (show_section env w2) as [r3 w3] eqn:Hshow.
      apply (show_section_spec _ _ qs 0 0%Z) in Hshow; [|done..].
      destruct Hshow as (H1 & H2 & H3 & H4 & H5 & H6 & H7 & _).
      unfold advances, scores in *. rewrite Hck in *.
      assert (session_inv (session w3)) as Hinv3.
      { split; [right; split; [congruence|rewrite H2; auto]|]. rewrite H3.
        split; [congruence|]. exists 0, 0%Z.
        repeat split; auto; try lia.
        - rewrite H5. by rewrite andb_false_r.
        - rewrite H6. by destruct (qs !! 0) as [[[? ?] ?]|]. }
      destruct r3 as [[]| | |]; try (by simplify_eq).
      rewrite cleanup_section_spec in Hrun. by simplify_eq.
    + edestruct (generate_section_idle fuel env w1) as [pg Hgen].
      { apply not_and_l in Hidle. destruct Hidle; eauto. }
      rewrite Hgen in Hrun. rewrite show_section_no_quiz in Hrun by done.
      rewrite cleanup_section_spec in Hrun. by simplify_eq.
Qed.

Lemma reachable_session_inv (w : World Chain) :
  reachable qa_run w -> session_inv (session w).
Proof.
  induction 1 as [g|fuel env w Hw IH].
  - split; simpl; auto.
  - by apply run_session_inv.
Qed.

Lemma reachable_runs fuel envs (w : World Chain) :
  reachable qa_run w -> reachable qa_run (runs qa_run fuel envs w).
Proof.
  revert w. induction envs as [|env envs IH]; intros w Hw; [done|].
  simpl. apply IH. by constructor.
Qed.

End ScriptFacts.

(** * The claims *)

(** ** C1: the options of a generated question *)

(** With a blank correct answer the returned list has a blank option: the
    non-blank test of line 135 is applied to the distractors only. *)
Lemma C1_blank_correct_answer_kept :
  exists opts,
    (generate_mcq scripted_run 3 "Q?" " " [Answer "x"; Answer "y"; Answer "z"] zero_rng).1.1
    = Ok opts
    /\ " " ∈ opts /\ PyStr.len (PyStr.strip " ") = 0.
Proof.
  exists ["x"; "y"; "z"; " "]. split; [reflexivity|]. split; [|reflexivity].
  rewrite !elem_of_cons. auto.
Qed.

(** C1, as amended: when [generate_mcq] returns, it returns exactly 4
    pairwise distinct options, exactly one of them equal to the correct
    answer, and every option other than the correct answer is non-empty
    after stripping (all four are when the correct answer is); a reply that
    is already among the options or is empty after stripping is dropped and
    the chain is asked again; and every question stored in a reachable
    session has such options. *)
Theorem C1_generated_options_well_formed {Chain : Type}
    (qa_run : Chain -> string -> Reply * Chain) :
  (forall fuel question correct_answer c g opts c' g',
      generate_mcq qa_run fuel question correct_answer c g = (Ok opts, c', g') ->
      length opts = 4 /\ NoDup opts
      /\ length (filter (fun o => o = correct_answer) opts) = 1
      /\ (forall o, o ∈ opts -> o <> correct_answer -> 0 < PyStr.len (PyStr.strip o))
      /\ (0 < PyStr.len (PyStr.strip correct_answer) ->
          Forall (fun o => 0 < PyStr.len (PyStr.strip o)) opts))
  /\ (forall fuel question options c fake c',
      length options < 4 ->
      qa_run c (distractor_prompt question) = (Answer fake, c') ->
      fake ∈ options \/ PyStr.len (PyStr.strip fake) = 0 ->
      distractor_loop qa_run (S fuel) question options c
      = distractor_loop qa_run fuel question options c')
  /\ (forall w qs,
      reachable qa_run w -> questions (session w) = Some qs ->
      Forall well_formed qs).
Proof.
  split; [|split].
  - intros fuel question correct_answer c g opts c' g' H.
    apply generate_mcq_well_formed in H as (Hlen & Hnd & Hin & Hne).
    split_and!; auto.
    + by apply filter_eq_NoDup.
    + intros Hca. apply Forall_forall. intros o Ho.
      destruct (decide (o = correct_answer)) as [->|]; auto.
  - intros fuel question options c fake c' Hlen Hrun Hrej.
    apply distractor_loop_reject with fake; auto.
    apply not_true_is_false. intros [Hnotin Hne]%accepted_spec.
    destruct Hrej; [done|lia].
  - intros w qs Hw Hqs. apply (reachable_session_inv qa_run) in Hw as [_ Hw].
    rewrite Hqs in Hw. by destruct Hw as (_ & i & n & _ & _ & _ & _ & Hwf).
Qed.

Lemma C1_generated_options_well_formed_witness :
  let opts := ["London"; "Berlin"; "Rome"; "Paris"] in
  length opts = 4 /\ NoDup opts
  /\ length (filter (fun o => o = "Paris") opts) = 1
  /\ (forall o, o ∈ opts -> o <> "Paris" -> 0 < PyStr.len (PyStr.strip o))
  /\ (0 < PyStr.len (PyStr.strip "Paris") ->
      Forall (fun o => 0 < PyStr.len (PyStr.strip o)) opts).
Proof.
  apply (proj1 (C1_generated_options_well_formed scripted_run)
           10 "Capital of France?" "Paris"
           [Answer "Paris"; Answer "Paris"; Answer "London"; Answer "  ";
            Answer "Berlin"; Answer "Rome"; Answer "Oslo"]
           zero_rng _ [Answer "Oslo"] zero_rng).
  reflexivity.
Defined.

(** ** C3: no bound on the attempts *)

Lemma constant_chain_loops text question fuel :
  distractor_loop (constant_run text) fuel question [text] tt = (OutOfFuel, tt).
Proof.
  induction fuel as [|fuel IH]; [done|].
  rewrite (distractor_loop_reject _ _ _ _ _ text tt); auto.
  apply not_true_is_false. intros [Hnotin _]%accepted_spec.
  apply Hnotin. left.
Qed.

(** On a chain that always answers "Paris", for a question whose correct
    answer is "Paris", no amount of fuel lets [generate_mcq] end: it neither
    returns nor fails. *)
Lemma C3_constant_chain_never_ends :
  ~ exists fuel,
      (generate_mcq (constant_run "Paris") fuel "Capital of France?" "Paris" tt zero_rng).1.1
      <> OutOfFuel.
Proof.
  intros [fuel H]. apply H. unfold generate_mcq.
  by rewrite constant_chain_loops.
Qed.

(** [n] replies that repeat the correct answer, then three fresh ones. *)
Definition late_chain (n : nat) : list Reply :=
  replicate n (Answer "A") ++ [Answer "x"; Answer "y"; Answer "z"].

Lemma late_chain_loop n fuel :
  distractor_loop scripted_run (n + fuel) "Q?" ["A"] (late_chain n)
  = distractor_loop scripted_run fuel "Q?" ["A"] (late_chain 0).
Proof.
  induction n as [|n IH]; [done|].
  change (S n + fuel) with (S (n + fuel)).
  rewrite (distractor_loop_reject _ _ _ _ _ "A" (late_chain n)); auto.
Qed.

(** C3, as amended: the loop asks the chain once per iteration and has no
    bound on the attempts.  It never ends while every reply is rejected;
    for every [n] there is a chain on which it is still running after [n]
    calls and returns four options after [n + 3]; and the only failure is
    the chain's own exception. *)
Theorem C3_distractor_loop_unbounded :
  (forall (Chain : Type) (qa_run : Chain -> string -> Reply * Chain)
          (stuck : Chain -> Prop) question options c,
      length options < 4 -> stuck c ->
      (forall c0, stuck c0 ->
         exists fake c1, qa_run c0 (distractor_prompt question) = (Answer fake, c1)
                         /\ accepted options fake = false /\ stuck c1) ->
      forall fuel, (distractor_loop qa_run fuel question options c).1 = OutOfFuel)
  /\ (forall n,
      (distractor_loop scripted_run n "Q?" ["A"] (late_chain n)).1 = OutOfFuel
      /\ distractor_loop scripted_run (n + 3) "Q?" ["A"] (late_chain n)
         = (Ok ["A"; "x"; "y"; "z"], []))
  /\ (forall (Chain : Type) (qa_run : Chain -> string -> Reply * Chain)
             fuel question options c e c',
      distractor_loop qa_run fuel question options c = (Raise e, c') ->
      e = OracleError
      /\ exists c0, qa_run c0 (distractor_prompt question) = (Failure, c')).
Proof.
  split; [|split].
  - intros Chain qa_run stuck question options c Hlen Hc Hstuck fuel.
    revert c Hc. induction fuel as [|fuel IH]; intros c Hc.
    + simpl. by rewrite bool_decide_eq_true_2.
    + destruct (Hstuck c Hc) as (fake & c1 & Hrun & Hrej & Hc1).
      rewrite (distractor_loop_reject _ _ _ _ _ _ _ Hlen Hrun Hrej). auto.
  - intros n. split.
    + replace n with (n + 0) at 1 by lia. by rewrite late_chain_loop.
    + by rewrite late_chain_loop.
  - intros Chain qa_run fuel question options c e c'. apply distractor_loop_Raise.
Qed.

Lemma C3_distractor_loop_unbounded_witness :
  (distractor_loop (constant_run "Paris") 1000 "Capital of France?" ["Paris"] tt).1
  = OutOfFuel.
Proof.
  apply (proj1 C3_distractor_loop_unbounded unit (constant_run "Paris") (fun _ => True)).
  - simpl. lia.
  - exact I.
  - intros c0 _. exists "Paris", tt. split_and!; reflexivity || exact I.
Defined.

(** ** C9: the duplicate test looks at the untrimmed text *)

(** The loop only ever adds to the end of the list it was given. *)
Lemma distractor_loop_extends {Chain : Type}
    (qa_run : Chain -> string -> Reply * Chain) fuel question options c opts c' :
  distractor_loop qa_run fuel question options c = (Ok opts, c') ->
  exists added, opts = options ++ added.
Proof.
  revert options c. induction fuel as [|fuel IH]; intros options c Hloop.
  - simpl in Hloop. case_bool_decide; simplify_eq. exists []. by rewrite app_nil_r.
  - cbn [distractor_loop] in Hloop. case_bool_decide.
    + destruct (qa_run c (distractor_prompt question)) as [[fake|] c1]; [|done].
      destruct (accepted options fake).
      * apply IH in Hloop as [added ->]. exists (fake :: added).
        by rewrite <- app_assoc.
      * by apply IH in Hloop.
    + simplify_eq. exists []. by rewrite app_nil_r.
Qed.

(** C9: the duplicate test compares the raw reply with the raw options.
    One iteration keeps the options when the reply is literally among them
    or is made of whitespace only, and otherwise appends the reply as it
    is; stripping plays no part in the comparison.  So a reply that is not
    literally among the options and is not blank, even one that differs
    from an option by surrounding whitespace only, is in the list the loop
    returns, unchanged and right after the options it found; and
    [generate_mcq] returns it, untrimmed, as an option distinct from the
    correct answer. *)
Theorem C9_duplicate_test_untrimmed {Chain : Type}
    (qa_run : Chain -> string -> Reply * Chain)
    fuel question options c fake c' :
  length options < 4 ->
  qa_run c (distractor_prompt question) = (Answer fake, c') ->
  distractor_loop qa_run (S fuel) question options c
  = distractor_loop qa_run fuel question
      (if bool_decide (fake ∈ options) || PyStr.blank fake
       then options else options ++ [fake]) c'
  /\ (fake ∉ options -> PyStr.blank fake = false ->
      forall opts c'',
        distractor_loop qa_run (S fuel) question options c = (Ok opts, c'') ->
        exists more, opts = options ++ fake :: more)
  /\ (forall correct_answer g opts c'' g',
        fake <> correct_answer -> PyStr.blank fake = false ->
        generate_mcq qa_run (S fuel) question correct_answer c g = (Ok opts, c'', g') ->
        fake ∈ opts /\ correct_answer ∈ opts /\ NoDup opts).
Proof.
  intros Hlen Hrun.
  assert (Hstep : forall options, length options < 4 ->
    distractor_loop qa_run (S fuel) question options c
    = distractor_loop qa_run fuel question
        (if bool_decide (fake ∈ options) || PyStr.blank fake
         then options else options ++ [fake]) c').
  { clear options Hlen. intros options Hlen.
    destruct (accepted options fake) eqn:Hacc.
    - rewrite (distractor_loop_accept _ _ _ _ _ _ _ Hlen Hrun Hacc).
      apply accepted_spec in Hacc as [Hnotin Hne].
      apply PyStrFacts.strip_nonempty_iff in Hne. rewrite Hne.
      by rewrite bool_decide_eq_false_2.
    - rewrite (distractor_loop_reject _ _ _ _ _ _ _ Hlen Hrun Hacc).
      destruct (bool_decide (fake ∈ options)) eqn:Hin; [done|].
      destruct (PyStr.blank fake) eqn:Hb; [done|]. exfalso.
      apply bool_decide_eq_false in Hin. apply PyStrFacts.strip_nonempty_iff in Hb.
      assert (accepted options fake = true) by (by apply accepted_spec). congruence. }
  split_and!.
  - by apply Hstep.
  - intros Hnotin Hb opts c'' Hloop. rewrite (Hstep options Hlen) in Hloop.
    rewrite bool_decide_eq_false_2, Hb in Hloop by done. simpl in Hloop.
    apply distractor_loop_extends in Hloop as [more ->].
    exists more. by rewrite <- app_assoc.
  - intros correct_answer g opts c'' g' Hne Hb Hgen.
    pose proof (generate_mcq_well_formed _ _ _ _ _ _ _ _ _ Hgen) as (_ & Hnd & Hca & _).
    apply generate_mcq_Ok in Hgen as (options' & Hloop & Hp).
    rewrite (Hstep [correct_answer]) in Hloop by (simpl; lia).
    rewrite bool_decide_eq_false_2, Hb in Hloop
      by (by intros ->%list_elem_of_singleton).
    simpl in Hloop. apply distractor_loop_extends in Hloop as [more ->].
    split_and!; try done. rewrite Hp. simpl. right. left.
Qed.

Lemma C9_duplicate_test_untrimmed_witness :
  PyStr.strip " Paris" = "Paris"
  /\ generate_mcq scripted_run 10 "Capital of France?" "Paris"
       [Answer " Paris"; Answer "Paris "; Answer "   "; Answer "Rome"] zero_rng
     = (Ok [" Paris"; "Paris "; "Rome"; "Paris"], [], zero_rng)
  /\ " Paris" ∈ [" Paris"; "Paris "; "Rome"; "Paris"]
  /\ "Paris" ∈ [" Paris"; "Paris "; "Rome"; "Paris"]
  /\ NoDup [" Paris"; "Paris "; "Rome"; "Paris"].
Proof.
  assert (H1 : length ["Paris"] < 4) by (simpl; lia).
  assert (H2 : scripted_run
                 [Answer " Paris"; Answer "Paris "; Answer "   "; Answer "Rome"]
                 (distractor_prompt "Capital of France?")
               = (Answer " Paris", [Answer "Paris "; Answer "   "; Answer "Rome"]))
    by reflexivity.
  assert (H3 : " Paris" <> "Paris") by discriminate.
  assert (H4 : PyStr.blank " Paris" = false) by reflexivity.
  assert (H5 : generate_mcq scripted_run 10 "Capital of France?" "Paris"
                 [Answer " Paris"; Answer "Paris "; Answer "   "; Answer "Rome"] zero_rng
               = (Ok [" Paris"; "Paris "; "Rome"; "Paris"], [], zero_rng))
    by reflexivity.
  exact (conj eq_refl (conj H5
           (proj2 (proj2 (C9_duplicate_test_untrimmed scripted_run 9 "Capital of France?"
                            ["Paris"] _ " Paris" _ H1 H2))
              "Paris" zero_rng _ [] zero_rng H3 H4 H5))).
Defined.

(** ** Runs that start or leave alone a quiz *)

Section RunFacts.

Context {Chain : Type}.
Variable qa_run : Chain -> string -> Reply * Chain.

(** Without a click on Submit or Next the quiz section changes nothing in
    the session. *)
Lemma show_section_idle env (w : World Chain) r w' :
  (forall k, clicked env <> Some (KSubmit k)) ->
  (forall k, clicked env <> Some (KNext k)) ->
  show_section env w = (r, w') -> session w' = session w.
Proof.
  intros Hs Hn. destruct w as [[pdf ch [qs|] sc cur] tf g pg]; simpl;
    [|rewrite show_section_no_quiz by done; by intros [= _ <-]].
  unfold show_section, bind, get_session, read. simpl.
  destruct cur as [i|]; simpl; [|by intros [= _ <-]].
  case_bool_decide as Hlt.
  - unfold Question in *.
    destruct (qs !! i) as [[[question options] correct_answer]|]; simpl;
      [|by intros [= _ <-]].
    unfold bind, emit, ret. simpl.
    rewrite (bool_decide_eq_false_2 _ (Hs i)), (bool_decide_eq_false_2 _ (Hn i)).
    simpl. by intros [= _ <-].
  - destruct sc as [n|]; simpl; [|by intros [= _ <-]].
    destruct (score_percentage_spec n (length qs)) as [[H0 Hp]|[H0 [pct Hp]]];
      rewrite Hp.
    + unfold raise. by intros [= _ <-].
    + unfold bind, emit. simpl.
      match goal with |- context [review 0 qs ?X] =>
        destruct (review_spec 0 qs X) as [lines Hl]; rewrite Hl end.
      by intros [= _ <-].
Qed.

(** The run in which the quiz is generated. *)
Lemma run_generates fuel env (w : World Chain) r w' :
  pdf_processed (session w) = Some true ->
  questions (session w) = None ->
  clicked env = Some KGenerate ->
  run qa_run fuel env w = (r, w') ->
  score (session w') = Some 0%Z
  /\ current_question (session w') = Some 0
  /\ exists qs,
       questions (session w') = Some qs /\ Forall well_formed qs
       /\ match r with
          | Ok _ => length qs = 4
          | _ => length qs < 4
          end.
Proof.
  intros Hpdf Hqs Hck Hrun. unfold run, script, bind in Hrun.
  rewrite upload_section_skip in Hrun by (simpl; congruence).
  match type of Hrun with context [generate_section qa_run fuel env ?X] =>
    destruct (generate_section qa_run fuel env X) as [r2 w2] eqn:Hgen end.
  apply generate_section_fires in Hgen; [|done..].
  destruct Hgen as (Hp2 & Hs2 & Hc2 & _ & _ & qs & Hq2 & Hwf & Hlen).
  destruct r2 as [[]| | |]; simplify_eq; eauto 10.
  destruct (show_section env w2) as [r3 w3] eqn:Hshow.
  pose proof (show_section_idle env w2 r3 w3) as Hidle.
  rewrite Hck in Hidle. specialize (Hidle ltac:(done) ltac:(done) Hshow).
  apply (show_section_spec _ _ qs 0 0%Z) in Hshow; [|done..].
  destruct Hshow as (_ & _ & _ & _ & _ & _ & [->|[_ ->]] & _); [|simpl in Hlen; lia].
  rewrite cleanup_section_spec in Hrun. simplify_eq/=.
  rewrite Hidle. eauto 10.
Qed.

End RunFacts.

(** A chain for four questions, and the session it gives once the document
    is processed and the quiz generated. *)
Definition demo_chain : list Reply :=
  [Answer "Q1?"; Answer "A1"; Answer "x"; Answer "A1"; Answer " "; Answer "y"; Answer "z";
   Answer "Q2?"; Answer "A2"; Answer "x"; Answer "y"; Answer "z";
   Answer "Q3?"; Answer "A3"; Answer "x"; Answer "y"; Answer "z";
   Answer "Q4?"; Answer "A4"; Answer "x"; Answer "y"; Answer "z"].

Definition demo_quiz : World (list Reply) :=
  runs scripted_run 10 [upload demo_chain; click KGenerate 0] (new_world zero_rng).

Definition demo_questions : list Question :=
  [("Q1?", ["x"; "y"; "z"; "A1"], "A1"); ("Q2?", ["x"; "y"; "z"; "A2"], "A2");
   ("Q3?", ["x"; "y"; "z"; "A3"], "A3"); ("Q4?", ["x"; "y"; "z"; "A4"], "A4")].

Example demo_quiz_session :
  session demo_quiz
  = mkSession (Some true) (Some []) (Some demo_questions) (Some 0%Z) (Some 0).
Proof. vm_compute. reflexivity. Qed.

(** The run that generates it ends normally, with the first question and
    its buttons on the page and no temporary file left. *)
Example demo_quiz_run :
  let rw := run scripted_run 10 (click KGenerate 0)
              (runs scripted_run 10 [upload demo_chain] (new_world zero_rng)) in
  rw.1 = Ok tt /\ temp_file rw.2 = false
  /\ page rw.2 = [Button KGenerate; Write "**Question 1:** Q1?";
                  Radio ["x"; "y"; "z"; "A1"]; Button (KSubmit 0); Button (KNext 0)].
Proof. vm_compute. done. Qed.

(** ** C2: scoring of submissions *)

(** Submitting the correct option of question 1 twice, without advancing,
    takes the score from 0 to 2. *)
Lemma C2_two_submissions_count_twice :
  let w2 := runs scripted_run 10 [click (KSubmit 0) 3; click (KSubmit 0) 3] demo_quiz in
  score (session demo_quiz) = Some 0%Z
  /\ current_question (session demo_quiz) = Some 0
  /\ current_question (session w2) = Some 0
  /\ score (session w2) = Some 2%Z.
Proof. vm_compute. done. Qed.

(** C2, as amended: a run in which Submit Answer fires for the current
    question adds exactly 1 to the score when the selected option equals
    the correct answer, and leaves the score as it is otherwise; no other
    run changes the score.  Submission is not idempotent: the same correct
    submission made again before advancing adds 1 again. *)
Theorem C2_every_correct_submission_counts {Chain : Type}
    (qa_run : Chain -> string -> Reply * Chain)
    fuel env (w : World Chain) qs i n question options correct_answer :
  pdf_processed (session w) = Some true ->
  questions (session w) = Some qs ->
  current_question (session w) = Some i ->
  score (session w) = Some n ->
  qs !! i = Some (question, options, correct_answer) ->
  let w1 := snd (run qa_run fuel env w) in
  let w2 := snd (run qa_run fuel env w1) in
  (clicked env = Some (KSubmit i) ->
   options !! radio_choice env = Some correct_answer ->
   score (session w1) = Some (n + 1)%Z /\ current_question (session w1) = Some i
   /\ score (session w2) = Some (n + 2)%Z)
  /\ (clicked env = Some (KSubmit i) ->
      options !! radio_choice env <> Some correct_answer ->
      score (session w1) = Some n)
  /\ (clicked env <> Some (KSubmit i) -> score (session w1) = Some n).
Proof.
  intros Hpdf Hqs Hi Hn Hq w1 w2. subst w1 w2.
  destruct (run qa_run fuel env w) as [r1 w1] eqn:Hrun1.
  destruct (run_with_quiz _ _ _ _ _ _ _ _ _ Hpdf Hqs Hi Hn Hrun1)
    as (Hp1 & _ & Hq1 & Hc1 & Hs1 & _).
  cbn [snd]. unfold scores, advances in *. rewrite Hq in *.
  split_and!.
  - intros Hck Hsel. rewrite Hck in *.
    rewrite !bool_decide_eq_true_2 in Hs1 by done.
    rewrite (bool_decide_eq_false_2 (Some (KSubmit i) = Some (KNext i))) in Hc1 by done.
    rewrite andb_false_r in Hc1. simpl in Hs1.
    destruct (run qa_run fuel env w1) as [r2 w2] eqn:Hrun2.
    destruct (run_with_quiz _ _ _ _ _ _ _ _ _ Hp1 Hq1 Hc1 Hs1 Hrun2)
      as (_ & _ & _ & _ & Hs2 & _).
    cbn [snd]. unfold scores in Hs2. rewrite Hq, Hck in Hs2.
    rewrite !bool_decide_eq_true_2 in Hs2 by done. simpl in Hs2.
    split_and!; try done. rewrite Hs2. f_equal. lia.
  - intros Hck Hsel. rewrite Hs1.
    by rewrite (bool_decide_eq_false_2 _ Hsel), andb_false_r.
  - intros Hck. rewrite Hs1. by rewrite (bool_decide_eq_false_2 _ Hck).
Qed.

Lemma C2_every_correct_submission_counts_witness :
  let env := click (KSubmit 0) 3 in
  let w1 := snd (run scripted_run 10 env demo_quiz) in
  let w2 := snd (run scripted_run 10 env w1) in
  score (session w1) = Some 1%Z /\ current_question (session w1) = Some 0
  /\ score (session w2) = Some 2%Z.
Proof.
  intros env w1 w2.
  assert (H1 : pdf_processed (session demo_quiz) = Some true) by (vm_compute; reflexivity).
  assert (H2 : questions (session demo_quiz) = Some demo_questions)
    by (vm_compute; reflexivity).
  assert (H3 : current_question (session demo_quiz) = Some 0) by (vm_compute; reflexivity).
  assert (H4 : score (session demo_quiz) = Some 0%Z) by (vm_compute; reflexivity).
  assert (H5 : demo_questions !! 0 = Some ("Q1?", ["x"; "y"; "z"; "A1"], "A1"))
    by (vm_compute; reflexivity).
  assert (H6 : clicked env = Some (KSubmit 0)) by (vm_compute; reflexivity).
  assert (H7 : ["x"; "y"; "z"; "A1"] !! radio_choice env = Some "A1")
    by (vm_compute; reflexivity).
  exact (proj1 (C2_every_correct_submission_counts scripted_run 10 env demo_quiz
                  demo_questions 0 0%Z "Q1?" ["x"; "y"; "z"; "A1"] "A1" H1 H2 H3 H4 H5)
           H6 H7).
Defined.

(** ** C4: generation is not atomic *)

(** The chain raises while the second question is being built: the run
    ends with the exception, and the first question, the score and the
    position stay in the session. *)
Lemma C4_partial_quiz_left_after_failure :
  let w := runs scripted_run 10 [upload (take 8 demo_chain)] (new_world zero_rng) in
  let rw := run scripted_run 10 (click KGenerate 0) w in
  questions (session w) = None
  /\ rw.1 = Raise OracleError
  /\ questions (session rw.2) = Some [("Q1?", ["x"; "y"; "z"; "A1"], "A1")]
  /\ score (session rw.2) = Some 0%Z
  /\ current_question (session rw.2) = Some 0.
Proof. vm_compute. done. Qed.

(** What the generation amounts to, written without the session: one
    round (lines 150-157) asks for a question, for its answer and for the
    options, and gives the question or the way it failed. *)
Definition build_question {Chain : Type} (qa_run : Chain -> string -> Reply * Chain)
    (fuel : nat) (c : Chain) (g : Rng) : Res Question * Chain * Rng :=
  match qa_run c question_prompt with
  | (Failure, c1) => (Raise OracleError, c1, g)
  | (Answer question, c1) =>
      match qa_run c1 (answer_prompt question) with
      | (Failure, c2) => (Raise OracleError, c2, g)
      | (Answer correct_answer, c2) =>
          match generate_mcq qa_run fuel question correct_answer c2 g with
          | (Ok options, c3, g3) => (Ok (question, options, correct_answer), c3, g3)
          | (Raise e, c3, g3) => (Raise e, c3, g3)
          | (Stop, c3, g3) => (Stop, c3, g3)
          | (OutOfFuel, c3, g3) => (OutOfFuel, c3, g3)
          end
      end
  end.

(** The questions built by [n] rounds up to the first round that fails,
    how the rounds ended, and the chain and the generator they leave. *)
Fixpoint questions_built {Chain : Type} (qa_run : Chain -> string -> Reply * Chain)
    (fuel n : nat) (c : Chain) (g : Rng) : list Question * Res unit * Chain * Rng :=
  match n with
  | 0 => ([], Ok tt, c, g)
  | S n' =>
      match build_question qa_run fuel c g with
      | (Ok q, c', g') =>
          let '(qs, r, c'', g'') := questions_built qa_run fuel n' c' g' in
          (q :: qs, r, c'', g'')
      | (Raise e, c', g') => ([], Raise e, c', g')
      | (Stop, c', g') => ([], Stop, c', g')
      | (OutOfFuel, c', g') => ([], OutOfFuel, c', g')
      end
  end.

Section GenerationFacts.

Context {Chain : Type}.
Variable qa_run : Chain -> string -> Reply * Chain.

(** One round of the handler stores what [build_question] builds. *)
Lemma generate_one_builds fuel (w : World Chain) qs0 c r w' :
  questions (session w) = Some qs0 ->
  qa_chain (session w) = Some c ->
  generate_one qa_run fuel w = (r, w') ->
  let '(rq, c', g') := build_question qa_run fuel c (rng w) in
  qa_chain (session w') = Some c' /\ rng w' = g'
  /\ match rq with
     | Ok q => r = Ok tt /\ questions (session w') = Some (qs0 ++ [q])
     | Raise e => r = Raise e /\ questions (session w') = Some qs0
     | Stop => r = Stop /\ questions (session w') = Some qs0
     | OutOfFuel => r = OutOfFuel /\ questions (session w') = Some qs0
     end.
Proof.
  destruct w as [[pdf ch qs sc cur] tf g pg]. simpl. intros -> ->.
  unfold generate_one, build_question, bind, chain_run, call_generate_mcq,
    append_question, bind, read, modify_session. simpl.
  destruct (qa_run c question_prompt) as [[question|] c1]; simpl;
    [|by intros [= <- <-]].
  destruct (qa_run c1 (answer_prompt question)) as [[correct_answer|] c2]; simpl;
    [|by intros [= <- <-]].
  destruct (generate_mcq qa_run fuel question correct_answer c2 g) as [[ro c3] g3].
  simpl. destruct ro as [options|e| |]; simpl; by intros [= <- <-].
Qed.

(** The rounds of the handler store what [questions_built] lists. *)
Lemma generate_loop_builds fuel n (w : World Chain) qs0 c r w' :
  questions (session w) = Some qs0 ->
  qa_chain (session w) = Some c ->
  for_range n (generate_one qa_run fuel) w = (r, w') ->
  let '(built, ro, c', g') := questions_built qa_run fuel n c (rng w) in
  questions (session w') = Some (qs0 ++ built) /\ r = ro
  /\ qa_chain (session w') = Some c' /\ rng w' = g'.
Proof.
  revert w qs0 c. induction n as [|n IH]; intros w qs0 c Hq Hc H.
  - simpl in *. unfold ret in H. simplify_eq. by rewrite app_nil_r.
  - cbn [for_range questions_built] in *. unfold bind in H.
    destruct (generate_one qa_run fuel w) as [r1 w1] eqn:H1.
    pose proof (generate_one_builds _ _ _ _ _ _ Hq Hc H1) as Hb.
    destruct (build_question qa_run fuel c (rng w)) as [[rq c1] g1].
    destruct Hb as (Hc1 & Hg1 & Hrq).
    destruct rq as [q|e| |]; destruct Hrq as [-> Hq1];
      [|simplify_eq; by rewrite app_nil_r..].
    specialize (IH w1 _ _ Hq1 Hc1 H). rewrite Hg1 in IH.
    destruct (questions_built qa_run fuel n c1 g1) as [[[built ro] c2] g2].
    destruct IH as (-> & -> & -> & ->). by rewrite <- app_assoc.
Qed.

Lemma questions_built_length fuel n c g :
  let '(built, ro, _, _) := questions_built qa_run fuel n c g in
  match ro with
  | Ok _ => length built = n
  | _ => length built < n
  end.
Proof.
  revert c g. induction n as [|n IH]; intros c g; [done|].
  cbn [questions_built].
  destruct (build_question qa_run fuel c g) as [[[q|e| |] c1] g1]; simpl; try lia.
  specialize (IH c1 g1).
  destruct (questions_built qa_run fuel n c1 g1) as [[[built ro] c2] g2].
  destruct ro; simpl; lia.
Qed.

(** The run in which the quiz is generated leaves what was built. *)
Lemma run_generates_built fuel env (w : World Chain) c r w' :
  pdf_processed (session w) = Some true ->
  qa_chain (session w) = Some c ->
  questions (session w) = None ->
  clicked env = Some KGenerate ->
  run qa_run fuel env w = (r, w') ->
  let '(built, ro, c', g') := questions_built qa_run fuel 4 c (rng w) in
  questions (session w') = Some built /\ r = ro /\ qa_chain (session w') = Some c'.
Proof.
  intros Hpdf Hc Hqs Hck Hrun.
  pose proof (run_generates qa_run _ _ _ _ _ Hpdf Hqs Hck Hrun)
    as (_ & _ & qs & Hqs' & _ & Hlen).
  unfold run, script, bind in Hrun.
  rewrite upload_section_skip in Hrun by (simpl; congruence).
  match type of Hrun with context [generate_section qa_run fuel env ?X] =>
    destruct (generate_section qa_run fuel env X) as [r2 w2] eqn:Hgen end.
  destruct w as [[pdf ch qs0 sc cur] tf g pg].
  cbn [session pdf_processed qa_chain questions rng temp_file] in *. subst.
  unfold generate_section, bind, get_session, emit, modify_session in Hgen.
  cbn -[for_range] in Hgen. rewrite (bool_decide_eq_true_2 _ Hck) in Hgen.
  cbn -[for_range] in Hgen.
  apply (generate_loop_builds _ _ _ [] c) in Hgen; [|done..].
  cbn -[questions_built] in Hgen.
  pose proof (questions_built_length fuel 4 c g) as Hbl.
  destruct (questions_built qa_run fuel 4 c g) as [[[built ro] c2] g2].
  destruct Hgen as (Hq2 & -> & Hc2 & _). simpl in Hq2.
  destruct ro as [[]|e| |]; [|by simplify_eq..].
  destruct (show_section env w2) as [r3 w3] eqn:Hshow.
  pose proof (show_section_idle env w2 r3 w3) as Hidle.
  rewrite Hck in Hidle. specialize (Hidle ltac:(done) ltac:(done) Hshow).
  destruct r3 as [[]|e| |].
  - rewrite cleanup_section_spec in Hrun. simplify_eq/=. by rewrite Hidle.
  - simplify_eq. rewrite Hidle, Hq2 in Hqs'. simplify_eq. lia.
  - simplify_eq. rewrite Hidle, Hq2 in Hqs'. simplify_eq. lia.
  - simplify_eq. rewrite Hidle, Hq2 in Hqs'. simplify_eq. lia.
Qed.

End GenerationFacts.

(** C4, as amended: the generate handler stores an empty question list, a
    zero score and position 0 before any synthesis, and appends each
    question as soon as it is built.  A run that ends normally leaves 4
    questions; a run that an exception (or a loop that does not end) cuts
    short leaves the questions built so far, fewer than 4, together with
    the score and the position.  What is left is exactly the list of the
    questions built up to the first round that fails, the run ends the way
    that round ended, and the chain is left where that round left it. *)
Theorem C4_generation_commits_as_it_goes {Chain : Type}
    (qa_run : Chain -> string -> Reply * Chain)
    fuel env (w : World Chain) r w' :
  pdf_processed (session w) = Some true ->
  questions (session w) = None ->
  clicked env = Some KGenerate ->
  run qa_run fuel env w = (r, w') ->
  exists qs,
    questions (session w') = Some qs
    /\ score (session w') = Some 0%Z
    /\ current_question (session w') = Some 0
    /\ (r = Ok tt -> length qs = 4)
    /\ (r <> Ok tt -> length qs < 4)
    /\ (forall c, qa_chain (session w) = Some c ->
        qs = (questions_built qa_run fuel 4 c (rng w)).1.1.1
        /\ r = (questions_built qa_run fuel 4 c (rng w)).1.1.2
        /\ qa_chain (session w') = Some (questions_built qa_run fuel 4 c (rng w)).1.2).
Proof.
  intros Hpdf Hqs Hck Hrun.
  destruct (run_generates _ _ _ _ _ _ Hpdf Hqs Hck Hrun)
    as (Hs & Hc & qs & Hq & _ & Hlen).
  exists qs. split_and!; auto.
  - by intros ->.
  - intros Hr. by destruct r as [[]| | |].
  - intros c Hch.
    pose proof (run_generates_built qa_run _ _ _ _ _ _ Hpdf Hch Hqs Hck Hrun) as Hb.
    destruct (questions_built qa_run fuel 4 c (rng w)) as [[[built ro] c2] g2].
    destruct Hb as (Hq' & -> & Hc'). simpl. split_and!; congruence.
Qed.

Lemma C4_generation_commits_as_it_goes_witness :
  let w := runs scripted_run 10 [upload (take 8 demo_chain)] (new_world zero_rng) in
  let rw := run scripted_run 10 (click KGenerate 0) w in
  (questions_built scripted_run 10 4 (take 8 demo_chain) zero_rng).1.1
  = ([("Q1?", ["x"; "y"; "z"; "A1"], "A1")], Raise OracleError)
  /\ exists qs,
       questions (session rw.2) = Some qs
       /\ score (session rw.2) = Some 0%Z
       /\ current_question (session rw.2) = Some 0
       /\ (rw.1 = Ok tt -> length qs = 4)
       /\ (rw.1 <> Ok tt -> length qs < 4)
       /\ (forall c, qa_chain (session w) = Some c ->
           qs = (questions_built scripted_run 10 4 c (rng w)).1.1.1
           /\ rw.1 = (questions_built scripted_run 10 4 c (rng w)).1.1.2
           /\ qa_chain (session rw.2)
              = Some (questions_built scripted_run 10 4 c (rng w)).1.2).
Proof.
  intros w rw. split; [vm_compute; reflexivity|].
  assert (H1 : pdf_processed (session w) = Some true) by (vm_compute; reflexivity).
  assert (H2 : questions (session w) = None) by (vm_compute; reflexivity).
  assert (H3 : clicked (click (Chain:=list Reply) KGenerate 0) = Some KGenerate)
    by (vm_compute; reflexivity).
  assert (H4 : run scripted_run 10 (click KGenerate 0) w = (rw.1, rw.2))
    by apply surjective_pairing.
  exact (C4_generation_commits_as_it_goes scripted_run 10 (click KGenerate 0) w
           rw.1 rw.2 H1 H2 H3 H4).
Defined.

(** ** C10: the quiz is generated once *)

(** C10: once the question list is in the session, a run caused by a click
    on Generate MCQ leaves the questions, the score and the position as
    they are. *)
Theorem C10_generate_again_changes_nothing {Chain : Type}
    (qa_run : Chain -> string -> Reply * Chain)
    fuel env (w : World Chain) qs :
  questions (session w) = Some qs ->
  clicked env = Some KGenerate ->
  let w' := snd (run qa_run fuel env w) in
  questions (session w') = Some qs
  /\ score (session w') = score (session w)
  /\ current_question (session w') = current_question (session w).
Proof.
  intros Hqs Hck w'. subst w'.
  destruct (run qa_run fuel env w) as [r w'] eqn:Hrun. cbn [snd].
  unfold run, script, bind in Hrun.
  match type of Hrun with context [upload_section env ?X] =>
    destruct (upload_section env X) as [r1 w1] eqn:Hup end.
  apply upload_section_spec in Hup as [_ Hup]. cbn [session] in Hup.
  assert (questions (session w1) = Some qs /\ score (session w1) = score (session w)
          /\ current_question (session w1) = current_question (session w))
    as (Hq1 & Hs1 & Hc1).
  { by destruct Hup as [->|(c & _ & _ & ->)]. }
  rewrite <- Hs1, <- Hc1. clear Hup Hs1 Hc1 Hqs.
  destruct r1 as [[]| | |]; try (by simplify_eq).
  destruct (generate_section_idle qa_run fuel env w1) as [pg Hgen];
    [right; right; by rewrite Hq1|].
  rewrite Hgen in Hrun. clear Hgen.
  match type of Hrun with context [show_section env ?X] =>
    destruct (show_section env X) as [r3 w3] eqn:Hshow end.
  apply show_section_idle in Hshow; [|by rewrite Hck..]. cbn [session] in Hshow.
  destruct r3 as [[]| | |]; try rewrite cleanup_section_spec in Hrun;
    simplify_eq/=; by rewrite Hshow.
Qed.

Lemma C10_generate_again_changes_nothing_witness :
  let w' := snd (run scripted_run 10 (click KGenerate 0) demo_quiz) in
  questions (session w') = Some demo_questions
  /\ score (session w') = score (session demo_quiz)
  /\ current_question (session w') = current_question (session demo_quiz).
Proof.
  assert (H1 : questions (session demo_quiz) = Some demo_questions)
    by (vm_compute; reflexivity).
  assert (H2 : clicked (click (Chain:=list Reply) KGenerate 0) = Some KGenerate)
    by (vm_compute; reflexivity).
  exact (C10_generate_again_changes_nothing scripted_run 10 (click KGenerate 0) demo_quiz
           demo_questions H1 H2).
Defined.

(** ** C5: the position in the quiz *)

(** The chain raises while the second question is being built; the session
    that is left has one question.  A second click on Generate MCQ brings
    that question to the page, and one click on Next takes the position to
    the end of the list. *)
Lemma C5_reachable_quiz_of_one_question :
  let w := runs scripted_run 10
             [upload (take 8 demo_chain); click KGenerate 0; click KGenerate 0;
              click (KNext 0) 0]
             (new_world zero_rng) in
  reachable scripted_run w
  /\ questions (session w) = Some [("Q1?", ["x"; "y"; "z"; "A1"], "A1")]
  /\ current_question (session w) = Some 1.
Proof.
  split.
  - apply reachable_runs, reachable_new.
  - vm_compute. done.
Qed.

(** C5, as amended: in every reachable session with a quiz the position
    is at most the number of questions, which is at most 4; a run leaves
    the question list as it is and moves the position by exactly one step
    when the Next button of the current question is clicked and the
    position is below the number of questions, and not at all otherwise;
    so once the position equals the number of questions it stays. *)
Theorem C5_position_steps_by_one {Chain : Type}
    (qa_run : Chain -> string -> Reply * Chain) (w : World Chain) qs :
  reachable qa_run w ->
  questions (session w) = Some qs ->
  length qs <= 4
  /\ exists i,
       current_question (session w) = Some i /\ i <= length qs
       /\ forall fuel env,
            let w' := snd (run qa_run fuel env w) in
            questions (session w') = Some qs
            /\ current_question (session w')
               = Some (if bool_decide (i < length qs /\ clicked env = Some (KNext i))
                       then i + 1 else i).
Proof.
  intros Hw Hqs. apply (reachable_session_inv qa_run) in Hw as [_ Hw].
  rewrite Hqs in Hw. destruct Hw as (Hpdf & i & n & Hi & Hn & Hle & _ & _).
  split; [lia|]. exists i. split_and!; [done|lia|].
  intros fuel env w'. subst w'.
  destruct (run qa_run fuel env w) as [r w'] eqn:Hrun. cbn [snd].
  destruct (run_with_quiz _ _ _ _ _ _ _ _ _ Hpdf Hqs Hi Hn Hrun)
    as (_ & _ & Hq' & Hc' & _).
  split; [done|]. rewrite Hc'. unfold advances. by rewrite bool_decide_and.
Qed.

Lemma C5_position_steps_by_one_witness :
  length demo_questions <= 4
  /\ exists i,
       current_question (session demo_quiz) = Some i /\ i <= length demo_questions
       /\ forall fuel env,
            let w' := snd (run scripted_run fuel env demo_quiz) in
            questions (session w') = Some demo_questions
            /\ current_question (session w')
               = Some (if bool_decide (i < length demo_questions
                                       /\ clicked env = Some (KNext i))
                       then i + 1 else i).
Proof.
  assert (H1 : reachable scripted_run demo_quiz)
    by apply reachable_runs, reachable_new.
  assert (H2 : questions (session demo_quiz) = Some demo_questions)
    by (vm_compute; reflexivity).
  exact (C5_position_steps_by_one scripted_run demo_quiz demo_questions H1 H2).
Defined.

(** ** C6: the final percentage *)

(** The double [x] is exactly the rational [num / den]. *)
Definition float_is (x : float) (num den : Z) : Prop :=
  match Prim2SF x with
  | S754_zero _ => num = 0%Z
  | S754_finite s m e =>
      let v := if s then Z.neg m else Z.pos m in
      if (0 <=? e)%Z then (v * 2 ^ e * den = num)%Z
      else (v * den = num * 2 ^ (- e))%Z
  | _ => False
  end.

(** Three correct answers and one wrong one, then the end of the quiz. *)
Definition demo_finished : World (list Reply) :=
  runs scripted_run 10
    [click (KSubmit 0) 3; click (KNext 0) 3; choose 3;
     click (KSubmit 1) 3; click (KNext 1) 3; choose 3;
     click (KSubmit 2) 3; click (KNext 2) 3; choose 0;
     click (KSubmit 3) 0; click (KNext 3) 0]
    demo_quiz.

(** ** C7: the temporary file *)

(** C7 fails on the code.  In a new session with an upload, the run in
    which the file is saved and the indexing raises ends with that
    exception before the clean-up of lines 197-198, and the run in which
    the write fails is ended by st.stop(); in both the temporary file is
    still on disk when the run is over.  A run that reaches its end does
    remove it. *)
Theorem C7_temp_file_left_behind {Chain : Type}
    (qa_run : Chain -> string -> Reply * Chain) fuel g ck rc c e :
  let indexing_fails := run qa_run fuel (mkEnv true Saved None ck rc) (new_world g) in
  let write_fails :=
    run qa_run fuel (mkEnv true (WriteFailed e) (Some c) ck rc) (new_world g) in
  let succeeds := run qa_run fuel (mkEnv true Saved (Some c) None rc) (new_world g) in
  (indexing_fails.1 = Raise IndexingError /\ temp_file indexing_fails.2 = true)
  /\ (write_fails.1 = Stop /\ temp_file write_fails.2 = true)
  /\ (succeeds.1 = Ok tt /\ temp_file succeeds.2 = false).
Proof. split_and!; reflexivity. Qed.

(** ** C8: advancing without submitting *)

(** C8: while the position is below the number of questions the Next
    button is on the page, whatever was or was not submitted, and a click
    on it moves the position by one and leaves the score as it is; four
    such clicks from position 0 of a quiz of 4 questions, each followed by
    the run that brings the next question to the page, reach the end with
    the score unchanged and no submission made. *)
Theorem C8_next_needs_no_submission {Chain : Type}
    (qa_run : Chain -> string -> Reply * Chain)
    fuel (w : World Chain) qs i n :
  pdf_processed (session w) = Some true ->
  questions (session w) = Some qs ->
  current_question (session w) = Some i ->
  score (session w) = Some n ->
  (i < length qs ->
   forall env,
     let w' := snd (run qa_run fuel env w) in
     Button (KNext i) ∈ page w'
     /\ (clicked env = Some (KNext i) ->
         current_question (session w') = Some (i + 1) /\ score (session w') = Some n))
  /\ (length qs = 4 -> i = 0 ->
      forall e0 r0 e1 r1 e2 r2 e3,
        clicked e0 = Some (KNext 0) -> clicked r0 = None ->
        clicked e1 = Some (KNext 1) -> clicked r1 = None ->
        clicked e2 = Some (KNext 2) -> clicked r2 = None ->
        clicked e3 = Some (KNext 3) ->
        let w4 := runs qa_run fuel [e0; r0; e1; r1; e2; r2; e3] w in
        questions (session w4) = Some qs
        /\ current_question (session w4) = Some 4 /\ score (session w4) = Some n).
Proof.
  intros Hpdf Hqs Hi Hn.
  assert (Hstep : forall (w0 : World Chain) k env,
    pdf_processed (session w0) = Some true -> questions (session w0) = Some qs ->
    current_question (session w0) = Some k -> score (session w0) = Some n ->
    let w' := snd (run qa_run fuel env w0) in
    (k < length qs -> clicked env = Some (KNext k) ->
     pdf_processed (session w') = Some true /\ questions (session w') = Some qs
     /\ current_question (session w') = Some (k + 1) /\ score (session w') = Some n)
    /\ (clicked env = None ->
        pdf_processed (session w') = Some true /\ questions (session w') = Some qs
        /\ current_question (session w') = Some k /\ score (session w') = Some n)).
  { intros w0 k env Hp0 Hq0 Hk0 Hn0 w'. subst w'.
    destruct (run qa_run fuel env w0) as [r w'] eqn:Hrun. cbn [snd].
    destruct (run_with_quiz _ _ _ _ _ _ _ _ _ Hp0 Hq0 Hk0 Hn0 Hrun)
      as (Hp' & _ & Hq' & Hc' & Hs' & _).
    unfold advances, scores, Question in *.
    assert (Hsub : clicked env <> Some (KSubmit k) ->
                   score (session w') = Some n).
    { intros Hne. rewrite Hs'. destruct (qs !! k) as [[[? ?] ?]|]; [|done].
      by rewrite (bool_decide_eq_false_2 _ Hne). }
    split.
    - intros Hlt Hck. split_and!; try done.
      + rewrite Hc'.
        rewrite (bool_decide_eq_true_2 _ Hlt), (bool_decide_eq_true_2 _ Hck).
        reflexivity.
      + apply Hsub. congruence.
    - intros Hck. split_and!; try done.
      + rewrite Hc'. rewrite (bool_decide_eq_false_2 (clicked env = Some (KNext k))).
        * by rewrite andb_false_r.
        * congruence.
      + apply Hsub. congruence. }
  split.
  - intros Hlt env w'. subst w'. split.
    + destruct (run qa_run fuel env w) as [r w'] eqn:Hrun. cbn [snd].
      destruct (run_with_quiz _ _ _ _ _ _ _ _ _ Hpdf Hqs Hi Hn Hrun)
        as (_ & _ & _ & _ & _ & _ & Hpage & _).
      by apply Hpage.
    + intros Hck.
      by destruct (proj1 (Hstep w i env Hpdf Hqs Hi Hn) Hlt Hck) as (_ & _ & ? & ?).
  - intros Hlen -> e0 r0 e1 r1 e2 r2 e3 H0 R0 H1 R1 H2 R2 H3 w4. subst w4. cbn [runs].
    destruct (proj1 (Hstep w 0 e0 Hpdf Hqs Hi Hn)) as (Hp1 & Hq1 & Hc1 & Hs1); [lia|done|].
    destruct (proj2 (Hstep _ 1 r0 Hp1 Hq1 Hc1 Hs1) R0) as (Hp1' & Hq1' & Hc1' & Hs1').
    destruct (proj1 (Hstep _ 1 e1 Hp1' Hq1' Hc1' Hs1'))
      as (Hp2 & Hq2 & Hc2 & Hs2); [lia|done|].
    destruct (proj2 (Hstep _ 2 r1 Hp2 Hq2 Hc2 Hs2) R1) as (Hp2' & Hq2' & Hc2' & Hs2').
    destruct (proj1 (Hstep _ 2 e2 Hp2' Hq2' Hc2' Hs2'))
      as (Hp3 & Hq3 & Hc3 & Hs3); [lia|done|].
    destruct (proj2 (Hstep _ 3 r2 Hp3 Hq3 Hc3 Hs3) R2) as (Hp3' & Hq3' & Hc3' & Hs3').
    destruct (proj1 (Hstep _ 3 e3 Hp3' Hq3' Hc3' Hs3'))
      as (Hp4 & Hq4 & Hc4 & Hs4); [lia|done|].
    done.
Qed.

Lemma C8_next_needs_no_submission_witness :
  let w4 := runs scripted_run 10
              [click (KNext 0) 0; choose 0; click (KNext 1) 0; choose 0;
               click (KNext 2) 0; choose 0; click (KNext 3) 0]
              demo_quiz in
  questions (session w4) = Some demo_questions
  /\ current_question (session w4) = Some 4 /\ score (session w4) = Some 0%Z.
Proof.
  assert (H1 : pdf_processed (session demo_quiz) = Some true) by (vm_compute; reflexivity).
  assert (H2 : questions (session demo_quiz) = Some demo_questions)
    by (vm_compute; reflexivity).
  assert (H3 : current_question (session demo_quiz) = Some 0) by (vm_compute; reflexivity).
  assert (H4 : score (session demo_quiz) = Some 0%Z) by (vm_compute; reflexivity).
  exact (proj2 (C8_next_needs_no_submission scripted_run 10 demo_quiz demo_questions 0 0%Z
                  H1 H2 H3 H4)
           eq_refl eq_refl
           (click (KNext 0) 0) (choose 0) (click (KNext 1) 0) (choose 0)
           (click (KNext 2) 0) (choose 0) (click (KNext 3) 0)
           eq_refl eq_refl eq_refl eq_refl eq_refl eq_refl eq_refl).
Defined.

(** * Further properties of the script *)

(** ** What a run puts on the page *)

(** The two lines per question of the review (lines 192-194). *)
Fixpoint review_lines (i : nat) (qs : list Question) : list Element :=
  match qs with
  | [] => []
  | (question, _, correct_answer) :: qs' =>
      Write ("**Question " +:+ pretty (i + 1) +:+ ":** " +:+ question)
      :: Write ("**Correct Answer:** " +:+ correct_answer)
      :: review_lines (S i) qs'
  end.

(** What the submit handler writes in a run (lines 170-175). *)
Definition feedback {Chain} (env : Env Chain) (i : nat) (options : list string)
    (correct_answer : string) : list Element :=
  if bool_decide (clicked env = Some (KSubmit i)) then
    if bool_decide (options !! radio_choice env = Some correct_answer)
    then [Markdown "<span class='correct-answer'>Correct!</span>"]
    else [Markdown "<span class='wrong-answer'>Wrong!</span>"]
  else [].

Lemma review_lines_length i qs : length (review_lines i qs) = 2 * length qs.
Proof.
  revert i. induction qs as [|[[q o] a] qs IH]; intros i; simpl; [done|].
  rewrite IH. lia.
Qed.

Lemma review_lines_lookup i qs k question options correct_answer :
  qs !! k = Some (question, options, correct_answer) ->
  review_lines i qs !! (2 * k)
  = Some (Write ("**Question " +:+ pretty (i + k + 1) +:+ ":** " +:+ question))
  /\ review_lines i qs !! (2 * k + 1)
     = Some (Write ("**Correct Answer:** " +:+ correct_answer)).
Proof.
  revert i k. induction qs as [|[[q o] a] qs IH]; intros i k Hk; [done|].
  destruct k as [|k]; simpl in Hk.
  - simplify_eq. simpl. by rewrite Nat.add_0_r.
  - replace (2 * S k) with (S (S (2 * k))) by lia.
    replace (S (S (2 * k)) + 1) with (S (S (2 * k + 1))) by lia.
    cbn [review_lines lookup list_lookup].
    destruct (IH (S i) k Hk) as [H1 H2].
    replace (i + S k + 1) with (S i + k + 1) by lia. done.
Qed.

Section PageFacts.

Context {Chain : Type}.
Variable qa_run : Chain -> string -> Reply * Chain.

Lemma review_page i qs (w : World Chain) :
  review i qs w
  = (Ok tt, mkWorld (session w) (temp_file w) (rng w) (page w ++ review_lines i qs)).
Proof.
  revert i w. induction qs as [|[[question options] correct_answer] qs IH]; intros i w.
  - destruct w. simpl. unfold ret. by rewrite app_nil_r.
  - cbn [review review_lines]. unfold bind, emit. simpl.
    rewrite IH. simpl. by rewrite <- !app_assoc.
Qed.

(** With the document processed, the generate section only draws its
    button unless it has a quiz to build. *)
Lemma generate_section_idle_page fuel env (w : World Chain) :
  pdf_processed (session w) = Some true ->
  clicked env <> Some KGenerate \/ questions (session w) <> None ->
  generate_section qa_run fuel env w
  = (Ok tt, mkWorld (session w) (temp_file w) (rng w) (page w ++ [Button KGenerate])).
Proof.
  destruct w as [s tf g pg].
  unfold generate_section, bind, get_session, emit, ret. simpl.
  intros Hp H. rewrite (bool_decide_eq_true_2 _ Hp).
  repeat case_bool_decide; eauto. by destruct H.
Qed.

(** The quiz section while a question is open: the question, its options,
    the two buttons, and the feedback of a submission in between. *)
Lemma show_section_open env (w : World Chain) qs i n question options correct_answer :
  questions (session w) = Some qs ->
  current_question (session w) = Some i ->
  score (session w) = Some n ->
  qs !! i = Some (question, options, correct_answer) ->
  exists s',
    show_section env w
    = (Ok tt,
       mkWorld s' (temp_file w) (rng w)
         (page w
          ++ [Write ("**Question " +:+ pretty (i + 1) +:+ ":** " +:+ question);
              Radio options; Button (KSubmit i)]
          ++ feedback env i options correct_answer ++ [Button (KNext i)])).
Proof.
  destruct w as [[pdf ch qs0 sc cur] tf g pg]. simpl. intros -> -> -> Hq.
  unfold show_section, bind, get_session, read. simpl.
  rewrite bool_decide_eq_true_2 by (by eapply lookup_lt_Some).
  unfold Question in *. rewrite Hq.
  unfold bind, emit, modify_session, read, ret, feedback. simpl.
  repeat case_bool_decide; simpl; rewrite <- ?app_assoc; simpl; eauto.
Qed.

(** The quiz section at the end of a quiz that has questions. *)
Lemma show_section_finished env (w : World Chain) qs i n pct :
  questions (session w) = Some qs ->
  current_question (session w) = Some i ->
  score (session w) = Some n ->
  length qs <= i ->
  score_percentage n (length qs) = Some pct ->
  show_section env w
  = (Ok tt,
     mkWorld (session w) (temp_file w) (rng w)
       (page w
        ++ [Markdown "<div class='centered-text'>Quiz Completed!</div>";
            Markdown (score_line pct);
            Markdown "<div class='centered-text'>Review:</div>"]
        ++ review_lines 0 qs)).
Proof.
  destruct w as [[pdf ch qs0 sc cur] tf g pg]. simpl. intros -> -> -> Hle Hp.
  unfold show_section, bind, get_session, read. simpl.
  rewrite bool_decide_eq_false_2 by lia. cbn -[score_percentage].
  rewrite Hp. unfold bind, emit. simpl. rewrite review_page. simpl.
  by rewrite <- !app_assoc.
Qed.

(** A run never ends normally with the temporary file on disk. *)
Lemma run_Ok_cleans fuel env (w : World Chain) w' :
  run qa_run fuel env w = (Ok tt, w') -> temp_file w' = false.
Proof.
  unfold run, script, bind.
  destruct (upload_section env _) as [[[]| | |] w1]; try done.
  destruct (generate_section qa_run fuel env w1) as [[[]| | |] w2]; try done.
  destruct (show_section env w2) as [[[]| | |] w3]; try done.
  rewrite cleanup_section_spec. by intros [= <-].
Qed.

End PageFacts.

(** ** Which exceptions a run can end with *)

Section OutcomeFacts.

Context {Chain : Type}.
Variable qa_run : Chain -> string -> Reply * Chain.

Lemma generate_mcq_Raise fuel question correct_answer c g e c' g' :
  generate_mcq qa_run fuel question correct_answer c g = (Raise e, c', g') ->
  e = OracleError.
Proof.
  unfold generate_mcq.
  destruct (distractor_loop qa_run fuel question [correct_answer] c)
    as [[options|e0| |] c1] eqn:Hloop; try done.
  - by destruct (shuffle options g).
  - intros [= -> _ _]. by apply distractor_loop_Raise in Hloop as [-> _].
Qed.

Lemma generate_one_Raise fuel (w : World Chain) e w' :
  is_Some (qa_chain (session w)) -> is_Some (questions (session w)) ->
  generate_one qa_run fuel w = (Raise e, w') -> e = OracleError.
Proof.
  destruct w as [[pdf ch qs sc cur] tf g pg]. simpl. intros [c ->] [qs0 ->].
  unfold generate_one, bind, chain_run, call_generate_mcq, append_question,
    bind, read, modify_session. simpl.
  destruct (qa_run c question_prompt) as [[question|] c1]; simpl;
    [|by intros [= <- _]].
  destruct (qa_run c1 (answer_prompt question)) as [[correct_answer|] c2]; simpl;
    [|by intros [= <- _]].
  destruct (generate_mcq qa_run fuel question correct_answer c2 g) as [[ro c3] g3] eqn:Hg.
  simpl. destruct ro as [options|e0| |]; simpl; intros [= <- _]; try done.
  by apply generate_mcq_Raise in Hg.
Qed.

Lemma generate_loop_Raise fuel n (w : World Chain) e w' :
  is_Some (qa_chain (session w)) -> is_Some (questions (session w)) ->
  for_range n (generate_one qa_run fuel) w = (Raise e, w') -> e = OracleError.
Proof.
  revert w. induction n as [|n IH]; intros w Hc [qs0 Hq] H.
  - simpl in H. unfold ret in H. by simplify_eq.
  - cbn [for_range] in H. unfold bind in H.
    destruct (generate_one qa_run fuel w) as [r1 w1] eqn:H1.
    destruct (generate_one_spec _ _ _ _ _ _ Hq H1) as (_ & _ & _ & _ & _ & Hch & Hr).
    destruct r1 as [[]|e1| |]; try done.
    + destruct Hr as (q & Hq1 & _). apply (IH w1); eauto.
    + simplify_eq. eapply generate_one_Raise; eauto.
Qed.

Lemma generate_section_Raise fuel env (w : World Chain) e w' :
  is_Some (qa_chain (session w)) ->
  generate_section qa_run fuel env w = (Raise e, w') -> e = OracleError.
Proof.
  destruct w as [[pdf ch qs sc cur] tf g pg]. simpl. intros Hc.
  unfold generate_section, bind, get_session, emit, modify_session, ret.
  cbn -[for_range].
  repeat case_bool_decide; try done.
  cbn -[for_range]. apply generate_loop_Raise; simpl; eauto.
Qed.

Lemma upload_section_outcome env (w : World Chain) r w' :
  upload_section env w = (r, w') ->
  r = Ok tt \/ r = Stop \/ r = Raise IndexingError.
Proof.
  destruct w as [s tf g pg], env as [up sv ix ck rc].
  unfold upload_section, bind, get_session, set_temp_file, emit, stop, raise,
    modify_session, ret. simpl.
  intros H. repeat (case_match || case_bool_decide); simplify_eq/=; eauto.
Qed.

(** From a session that satisfies the invariant, a run does not end with a
    KeyError, and ends with a ZeroDivisionError only over an empty list of
    questions. *)
Lemma run_outcome fuel env (w : World Chain) r w' :
  session_inv (session w) ->
  run qa_run fuel env w = (r, w') ->
  r <> Raise KeyError
  /\ (r = Raise ZeroDivisionError -> questions (session w') = Some []).
Proof.
  intros [Hpdf Hquiz] Hrun.
  destruct (questions (session w)) as [qs|] eqn:Hqs.
  - destruct Hquiz as (Hp & i & n & Hi & Hn & _).
    destruct (run_with_quiz _ _ _ _ _ _ _ _ _ Hp Hqs Hi Hn Hrun)
      as (_ & _ & Hq' & _ & _ & [[-> _]|[-> ->]] & _); split; try done.
  - unfold run, script, bind in Hrun.
    match type of Hrun with context [upload_section env ?X] =>
      destruct (upload_section env X) as [r1 w1] eqn:Hup end.
    pose proof (upload_section_outcome _ _ _ _ Hup) as Hr1.
    apply upload_section_spec in Hup as [_ Hup]. cbn [session] in Hup.
    assert ((pdf_processed (session w1) = Some true -> is_Some (qa_chain (session w1)))
            /\ questions (session w1) = None) as [Hch1 Hq1].
    { destruct Hup as [->|(c & _ & Hnone & ->)]; simpl; split; eauto.
      destruct Hpdf as [?|[_ ?]]; [congruence|done]. }
    clear Hup Hpdf Hquiz Hqs.
    destruct Hr1 as [->|[->| ->]]; try (by simplify_eq).
    destruct (decide (pdf_processed (session w1) = Some true
                      /\ clicked env = Some KGenerate)) as [[Hp Hck]|Hidle].
    + destruct (generate_section qa_run fuel env w1) as [r2 w2] eqn:Hgen.
      destruct (generate_section_fires _ _ _ _ _ _ Hp Hck Hq1 Hgen)
        as (Hp2 & Hs2 & Hc2 & _ & _ & qs & Hq2 & _ & Hlen).
      destruct r2 as [[]|e| |]; [|simplify_eq..]; [|
        by apply generate_section_Raise in Hgen as ->; [|auto] |done|done].
      destruct (show_section env w2) as [r3 w3] eqn:Hshow.
      apply (show_section_spec _ _ qs 0 0%Z) in Hshow; [|done..].
      destruct Hshow as (_ & _ & _ & _ & _ & _ & [->|[_ ->]] & _);
        [|simpl in Hlen; lia].
      rewrite cleanup_section_spec in Hrun. by simplify_eq.
    + edestruct (generate_section_idle qa_run fuel env w1) as [pg Hgen].
      { apply not_and_l in Hidle. destruct Hidle; eauto. }
      rewrite Hgen in Hrun. rewrite show_section_no_quiz in Hrun by done.
      rewrite cleanup_section_spec in Hrun. by simplify_eq.
Qed.

End OutcomeFacts.

(** ** Runs over a session that has a quiz *)

Section QuizRuns.

Context {Chain : Type}.
Variable qa_run : Chain -> string -> Reply * Chain.

Lemma session_eq (s s' : Session Chain) :
  pdf_processed s' = pdf_processed s -> qa_chain s' = qa_chain s ->
  questions s' = questions s -> score s' = score s ->
  current_question s' = current_question s -> s' = s.
Proof. destruct s, s'. simpl. by intros -> -> -> -> ->. Qed.

(** A run in which neither handler fires gives back the session it got. *)
Lemma run_quiz_idle fuel env (w : World Chain) qs i n r w' :
  pdf_processed (session w) = Some true ->
  questions (session w) = Some qs ->
  current_question (session w) = Some i ->
  score (session w) = Some n ->
  advances env qs i = false -> scores env qs i = false ->
  run qa_run fuel env w = (r, w') -> session w' = session w.
Proof.
  intros Hpdf Hqs Hi Hn Ha Hs Hrun.
  destruct (run_with_quiz _ _ _ _ _ _ _ _ _ Hpdf Hqs Hi Hn Hrun)
    as (H1 & H2 & H3 & H4 & H5 & _).
  rewrite Ha in H4. rewrite Hs in H5. apply session_eq; congruence.
Qed.

(** The page of a run over an open question. *)
Lemma run_page_open fuel env (w : World Chain) qs i n question options correct_answer :
  pdf_processed (session w) = Some true ->
  questions (session w) = Some qs ->
  current_question (session w) = Some i ->
  score (session w) = Some n ->
  qs !! i = Some (question, options, correct_answer) ->
  (run qa_run fuel env w).1 = Ok tt
  /\ page (run qa_run fuel env w).2
     = [Button KGenerate;
        Write ("**Question " +:+ pretty (i + 1) +:+ ":** " +:+ question);
        Radio options; Button (KSubmit i)]
       ++ feedback env i options correct_answer ++ [Button (KNext i)].
Proof.
  intros Hpdf Hqs Hi Hn Hq. unfold run, script, bind.
  rewrite upload_section_skip by (simpl; congruence).
  rewrite generate_section_idle_page; [|done|right; simpl; congruence].
  cbn [session temp_file rng page].
  match goal with |- context [show_section env ?X] =>
    destruct (show_section_open env X qs i n question options correct_answer)
      as [s' ->]; try done end.
  rewrite cleanup_section_spec. done.
Qed.

(** The page of a run at the end of a quiz that has questions. *)
Lemma run_page_finished fuel env (w : World Chain) qs i n pct :
  pdf_processed (session w) = Some true ->
  questions (session w) = Some qs ->
  current_question (session w) = Some i ->
  score (session w) = Some n ->
  length qs <= i ->
  score_percentage n (length qs) = Some pct ->
  (run qa_run fuel env w).1 = Ok tt
  /\ page (run qa_run fuel env w).2
     = [Button KGenerate;
        Markdown "<div class='centered-text'>Quiz Completed!</div>";
        Markdown (score_line pct);
        Markdown "<div class='centered-text'>Review:</div>"]
       ++ review_lines 0 qs.
Proof.
  intros Hpdf Hqs Hi Hn Hle Hp. unfold run, script, bind.
  rewrite upload_section_skip by (simpl; congruence).
  rewrite generate_section_idle_page; [|done|right; simpl; congruence].
  cbn [session temp_file rng page].
  rewrite (show_section_finished env _ qs i n pct) by done.
  rewrite cleanup_section_spec. done.
Qed.

End QuizRuns.

(** X1: from a reachable session no run ends with a KeyError: every key
    the script reads has been stored before.  A run ends with a
    ZeroDivisionError only when the session holds an empty question list. *)
Theorem X1_no_missing_key {Chain : Type}
    (qa_run : Chain -> string -> Reply * Chain) (w : World Chain) fuel env :
  reachable qa_run w ->
  (run qa_run fuel env w).1 <> Raise KeyError
  /\ ((run qa_run fuel env w).1 = Raise ZeroDivisionError ->
      questions (session (run qa_run fuel env w).2) = Some []).
Proof.
  intros Hw%(reachable_session_inv qa_run).
  destruct (run qa_run fuel env w) as [r w'] eqn:Hrun.
  by apply (run_outcome qa_run fuel env w).
Qed.

Lemma X1_no_missing_key_witness :
  (run scripted_run 10 (click (KSubmit 0) 1) demo_quiz).1 <> Raise KeyError
  /\ ((run scripted_run 10 (click (KSubmit 0) 1) demo_quiz).1 = Raise ZeroDivisionError ->
      questions (session (run scripted_run 10 (click (KSubmit 0) 1) demo_quiz).2)
      = Some []).
Proof.
  assert (H1 : reachable scripted_run demo_quiz)
    by apply reachable_runs, reachable_new.
  exact (X1_no_missing_key scripted_run demo_quiz 10 (click (KSubmit 0) 1) H1).
Defined.

(** X2: the end of the quiz is final.  Once the position equals the number
    of questions, no run changes anything in the session, whatever is
    clicked: there is no way to restart or to regenerate. *)
Theorem X2_completed_is_final {Chain : Type}
    (qa_run : Chain -> string -> Reply * Chain) (w : World Chain) qs fuel env :
  reachable qa_run w ->
  questions (session w) = Some qs ->
  current_question (session w) = Some (length qs) ->
  session (run qa_run fuel env w).2 = session w.
Proof.
  intros Hw Hqs Hi. apply (reachable_session_inv qa_run) in Hw as [_ Hw].
  rewrite Hqs in Hw. destruct Hw as (Hpdf & i & n & Hi' & Hn & _).
  destruct (run qa_run fuel env w) as [r w'] eqn:Hrun. cbn [snd].
  eapply run_quiz_idle; eauto.
  - unfold advances. by rewrite bool_decide_eq_false_2 by lia.
  - unfold scores, Question. by rewrite lookup_ge_None_2.
Qed.

Lemma X2_completed_is_final_witness :
  session (run scripted_run 10 (click KGenerate 0) demo_finished).2
  = session demo_finished.
Proof.
  assert (H1 : reachable scripted_run demo_finished)
    by (apply reachable_runs, reachable_runs, reachable_new).
  assert (H2 : questions (session demo_finished) = Some demo_questions)
    by (vm_compute; reflexivity).
  assert (H3 : current_question (session demo_finished) = Some (length demo_questions))
    by (vm_compute; reflexivity).
  exact (X2_completed_is_final scripted_run demo_finished demo_questions 10
           (click KGenerate 0) H1 H2 H3).
Defined.

(** X3: a click that is not on the Submit or Next button of the current
    question changes nothing in the session.  This covers the buttons of a
    page drawn for another position: their keys carry that position. *)
Theorem X3_other_clicks_change_nothing {Chain : Type}
    (qa_run : Chain -> string -> Reply * Chain) (w : World Chain) qs i fuel env :
  reachable qa_run w ->
  questions (session w) = Some qs ->
  current_question (session w) = Some i ->
  clicked env <> Some (KSubmit i) ->
  clicked env <> Some (KNext i) ->
  session (run qa_run fuel env w).2 = session w.
Proof.
  intros Hw Hqs Hi Hs Hn. apply (reachable_session_inv qa_run) in Hw as [_ Hw].
  rewrite Hqs in Hw. destruct Hw as (Hpdf & i' & n & Hi' & Hn' & _).
  assert (i' = i) as -> by congruence.
  destruct (run qa_run fuel env w) as [r w'] eqn:Hrun. cbn [snd].
  apply (run_quiz_idle qa_run fuel env w qs i n r w'); try done.
  - unfold advances. rewrite (bool_decide_eq_false_2 _ Hn). apply andb_false_r.
  - unfold scores, Question in *. destruct (qs !! i) as [[[? ?] ?]|]; [|done].
    by rewrite (bool_decide_eq_false_2 _ Hs).
Qed.

(** After the first click on Next the position is 1; a second click on the
    Next button of the page still on screen (key next0) is without effect. *)
Lemma X3_other_clicks_change_nothing_witness :
  let w := runs scripted_run 10 [click (KNext 0) 0] demo_quiz in
  current_question (session w) = Some 1
  /\ session (run scripted_run 10 (click (KNext 0) 0) w).2 = session w.
Proof.
  intros w.
  assert (H1 : reachable scripted_run w)
    by (apply reachable_runs, reachable_runs, reachable_new).
  assert (H2 : questions (session w) = Some demo_questions) by (vm_compute; reflexivity).
  assert (H3 : current_question (session w) = Some 1) by (vm_compute; reflexivity).
  assert (H4 : clicked (click (Chain:=list Reply) (KNext 0) 0) <> Some (KSubmit 1))
    by discriminate.
  assert (H5 : clicked (click (Chain:=list Reply) (KNext 0) 0) <> Some (KNext 1))
    by discriminate.
  exact (conj H3 (X3_other_clicks_change_nothing scripted_run w demo_questions 1 10
                    (click (KNext 0) 0) H1 H2 H3 H4 H5)).
Defined.

(** X4: the page of a run shows the question at the position the session
    had when the run began: the question, its options, the Submit button,
    the feedback of a submission, the Next button.  This holds in the run
    where Next fires too, so the page is one question behind the session
    until the following run. *)
Theorem X4_page_shows_position_at_start {Chain : Type}
    (qa_run : Chain -> string -> Reply * Chain)
    (w : World Chain) qs i question options correct_answer fuel env :
  reachable qa_run w ->
  questions (session w) = Some qs ->
  current_question (session w) = Some i ->
  qs !! i = Some (question, options, correct_answer) ->
  (run qa_run fuel env w).1 = Ok tt
  /\ page (run qa_run fuel env w).2
     = [Button KGenerate;
        Write ("**Question " +:+ pretty (i + 1) +:+ ":** " +:+ question);
        Radio options; Button (KSubmit i)]
       ++ feedback env i options correct_answer ++ [Button (KNext i)]
  /\ (clicked env = Some (KNext i) ->
      current_question (session (run qa_run fuel env w).2) = Some (i + 1)).
Proof.
  intros Hw Hqs Hi Hq. apply (reachable_session_inv qa_run) in Hw as [_ Hw].
  rewrite Hqs in Hw. destruct Hw as (Hpdf & i' & n & Hi' & Hn & _).
  destruct (run_page_open qa_run fuel env w qs i n question options correct_answer)
    as [Hr Hpage]; try done.
  split_and!; try done. intros Hck.
  destruct (run qa_run fuel env w) as [r w'] eqn:Hrun. cbn [snd].
  destruct (run_with_quiz _ _ _ _ _ _ _ _ _ Hpdf Hqs Hi Hn Hrun)
    as (_ & _ & _ & Hc & _).
  rewrite Hc. unfold advances.
  rewrite bool_decide_eq_true_2 by (by eapply lookup_lt_Some).
  by rewrite (bool_decide_eq_true_2 _ Hck).
Qed.

Lemma X4_page_shows_position_at_start_witness :
  (run scripted_run 10 (click (KNext 0) 2) demo_quiz).1 = Ok tt
  /\ page (run scripted_run 10 (click (KNext 0) 2) demo_quiz).2
     = [Button KGenerate;
        Write ("**Question " +:+ pretty (0 + 1) +:+ ":** " +:+ "Q1?");
        Radio ["x"; "y"; "z"; "A1"]; Button (KSubmit 0)]
       ++ feedback (click (Chain:=list Reply) (KNext 0) 2) 0 ["x"; "y"; "z"; "A1"] "A1"
       ++ [Button (KNext 0)]
  /\ (clicked (click (Chain:=list Reply) (KNext 0) 2) = Some (KNext 0) ->
      current_question (session (run scripted_run 10 (click (KNext 0) 2) demo_quiz).2)
      = Some (0 + 1)).
Proof.
  assert (H1 : reachable scripted_run demo_quiz)
    by apply reachable_runs, reachable_new.
  assert (H2 : questions (session demo_quiz) = Some demo_questions)
    by (vm_compute; reflexivity).
  assert (H3 : current_question (session demo_quiz) = Some 0) by (vm_compute; reflexivity).
  assert (H4 : demo_questions !! 0 = Some ("Q1?", ["x"; "y"; "z"; "A1"], "A1"))
    by reflexivity.
  exact (X4_page_shows_position_at_start scripted_run demo_quiz demo_questions 0
           "Q1?" ["x"; "y"; "z"; "A1"] "A1" 10 (click (KNext 0) 2) H1 H2 H3 H4).
Defined.

(** X5: the feedback on the page agrees with the score.  Over an open
    question, "Correct!" is on the page of a run exactly when that run has
    added 1 to the score, and "Wrong!" exactly when Submit was clicked with
    a selection other than the correct answer, which leaves the score. *)
Theorem X5_feedback_agrees_with_score {Chain : Type}
    (qa_run : Chain -> string -> Reply * Chain)
    (w : World Chain) qs i n question options correct_answer fuel env :
  reachable qa_run w ->
  questions (session w) = Some qs ->
  current_question (session w) = Some i ->
  score (session w) = Some n ->
  qs !! i = Some (question, options, correct_answer) ->
  let w' := (run qa_run fuel env w).2 in
  (Markdown "<span class='correct-answer'>Correct!</span>" ∈ page w'
   <-> score (session w') = Some (n + 1)%Z)
  /\ (Markdown "<span class='wrong-answer'>Wrong!</span>" ∈ page w'
      <-> (clicked env = Some (KSubmit i)
           /\ options !! radio_choice env <> Some correct_answer))
  /\ (Markdown "<span class='wrong-answer'>Wrong!</span>" ∈ page w' ->
      score (session w') = Some n).
Proof.
  intros Hw Hqs Hi Hn Hq w'. subst w'.
  apply (reachable_session_inv qa_run) in Hw as [_ Hw].
  rewrite Hqs in Hw. destruct Hw as (Hpdf & _).
  destruct (run_page_open qa_run fuel env w qs i n question options correct_answer)
    as [_ Hpage]; try done.
  destruct (run qa_run fuel env w) as [r w'] eqn:Hrun. cbn [snd] in *.
  destruct (run_with_quiz _ _ _ _ _ _ _ _ _ Hpdf Hqs Hi Hn Hrun)
    as (_ & _ & _ & _ & Hs & _).
  rewrite Hpage, Hs. unfold scores, feedback, Question in *. rewrite Hq.
  clear Hpage Hs Hrun.
  destruct (decide (clicked env = Some (KSubmit i))) as [Hck|Hck];
    [rewrite (bool_decide_eq_true_2 _ Hck)|rewrite (bool_decide_eq_false_2 _ Hck)];
    [destruct (decide (options !! radio_choice env = Some correct_answer)) as [Hsel|Hsel];
     [rewrite (bool_decide_eq_true_2 _ Hsel)|rewrite (bool_decide_eq_false_2 _ Hsel)]|];
    simpl; rewrite ?elem_of_cons, ?elem_of_nil;
    (split_and!; [split|split|]); intros; try done;
    try (f_equal; lia); try (exfalso; simplify_eq; lia); intuition (try discriminate).
Qed.

Lemma X5_feedback_agrees_with_score_witness :
  let w' := (run scripted_run 10 (click (KSubmit 0) 1) demo_quiz).2 in
  (Markdown "<span class='correct-answer'>Correct!</span>" ∈ page w'
   <-> score (session w') = Some (0 + 1)%Z)
  /\ (Markdown "<span class='wrong-answer'>Wrong!</span>" ∈ page w'
      <-> (clicked (click (Chain:=list Reply) (KSubmit 0) 1) = Some (KSubmit 0)
           /\ ["x"; "y"; "z"; "A1"] !! radio_choice (click (Chain:=list Reply) (KSubmit 0) 1)
              <> Some "A1"))
  /\ (Markdown "<span class='wrong-answer'>Wrong!</span>" ∈ page w' ->
      score (session w') = Some 0%Z).
Proof.
  assert (H1 : reachable scripted_run demo_quiz)
    by apply reachable_runs, reachable_new.
  assert (H2 : questions (session demo_quiz) = Some demo_questions)
    by (vm_compute; reflexivity).
  assert (H3 : current_question (session demo_quiz) = Some 0) by (vm_compute; reflexivity).
  assert (H4 : score (session demo_quiz) = Some 0%Z) by (vm_compute; reflexivity).
  assert (H5 : demo_questions !! 0 = Some ("Q1?", ["x"; "y"; "z"; "A1"], "A1"))
    by reflexivity.
  exact (X5_feedback_agrees_with_score scripted_run demo_quiz demo_questions 0 0%Z
           "Q1?" ["x"; "y"; "z"; "A1"] "A1" 10 (click (KSubmit 0) 1) H1 H2 H3 H4 H5).
Defined.

(** Over an empty list of questions the percentage cannot be computed. *)
Lemma run_empty_quiz {Chain : Type} (qa_run : Chain -> string -> Reply * Chain)
    fuel env (w : World Chain) i n :
  pdf_processed (session w) = Some true ->
  questions (session w) = Some [] ->
  current_question (session w) = Some i ->
  score (session w) = Some n ->
  (run qa_run fuel env w).1 = Raise ZeroDivisionError.
Proof.
  intros Hpdf Hqs Hi Hn. unfold run, script, bind.
  rewrite upload_section_skip by (simpl; congruence).
  rewrite generate_section_idle_page; [|done|right; simpl; congruence].
  destruct w as [[pdf ch qs sc cur] tf g pg]. simpl in *. subst.
  unfold show_section, bind, get_session, read. simpl. done.
Qed.

(** X7: when the very first call of the chain raises in the run that
    generates the quiz, the session is left with an empty question list;
    from then on every run ends with the ZeroDivisionError of line 183,
    changes nothing in the session, and so no quiz can be had in this
    session any more. *)
Theorem X7_empty_quiz_divides_by_zero {Chain : Type}
    (qa_run : Chain -> string -> Reply * Chain)
    (w : World Chain) c c' fuel env :
  pdf_processed (session w) = Some true ->
  qa_chain (session w) = Some c ->
  questions (session w) = None ->
  qa_run c question_prompt = (Failure, c') ->
  clicked env = Some KGenerate ->
  let rw := run qa_run fuel env w in
  rw.1 = Raise OracleError
  /\ questions (session rw.2) = Some []
  /\ forall fuel' env',
       (run qa_run fuel' env' rw.2).1 = Raise ZeroDivisionError
       /\ session (run qa_run fuel' env' rw.2).2 = session rw.2.
Proof.
  intros Hpdf Hc Hqs Hrun Hck rw.
  assert (Hrw : rw.1 = Raise OracleError
                /\ session rw.2
                   = mkSession (Some true) (Some c') (Some []) (Some 0%Z) (Some 0)).
  { subst rw. unfold run, script, bind.
    rewrite upload_section_skip by (simpl; congruence).
    destruct w as [[pdf ch qs sc cur] tf g pg]. simpl in *. subst.
    unfold generate_section, bind, get_session, emit, modify_session.
    cbn -[for_range]. rewrite (bool_decide_eq_true_2 _ Hck).
    cbn [for_range]. unfold bind, generate_one, bind, chain_run. simpl.
    by rewrite Hrun. }
  destruct Hrw as [Hr Hs]. split_and!; [done|by rewrite Hs|].
  intros fuel' env'.
  destruct (run qa_run fuel' env' rw.2) as [r2 w2] eqn:Hrun2. cbn [fst snd].
  assert (H1 : pdf_processed (session rw.2) = Some true) by (by rewrite Hs).
  assert (H2 : questions (session rw.2) = Some []) by (by rewrite Hs).
  assert (H3 : current_question (session rw.2) = Some 0) by (by rewrite Hs).
  assert (H4 : score (session rw.2) = Some 0%Z) by (by rewrite Hs).
  split.
  - pose proof (run_empty_quiz qa_run fuel' env' rw.2 0 0%Z H1 H2 H3 H4) as Hz.
    by rewrite Hrun2 in Hz.
  - by eapply (run_quiz_idle qa_run fuel' env' rw.2 [] 0 0%Z).
Qed.

Lemma X7_empty_quiz_divides_by_zero_witness :
  let w := runs scripted_run 10 [upload []] (new_world zero_rng) in
  let rw := run scripted_run 10 (click KGenerate 0) w in
  rw.1 = Raise OracleError
  /\ questions (session rw.2) = Some []
  /\ forall fuel' env',
       (run scripted_run fuel' env' rw.2).1 = Raise ZeroDivisionError
       /\ session (run scripted_run fuel' env' rw.2).2 = session rw.2.
Proof.
  intros w.
  assert (H1 : pdf_processed (session w) = Some true) by (vm_compute; reflexivity).
  assert (H2 : qa_chain (session w) = Some []) by (vm_compute; reflexivity).
  assert (H3 : questions (session w) = None) by (vm_compute; reflexivity).
  assert (H4 : scripted_run [] question_prompt = (Failure, [])) by reflexivity.
  assert (H5 : clicked (click (Chain:=list Reply) KGenerate 0) = Some KGenerate)
    by reflexivity.
  exact (X7_empty_quiz_divides_by_zero scripted_run w [] [] 10 (click KGenerate 0)
           H1 H2 H3 H4 H5).
Defined.

(** X8: a failed upload leaves the session as it was.  When saving the
    file raises [e], the page shows "Error saving file: " followed by the
    text of [e] and the run is stopped; when the indexing raises the run
    ends with that exception.  In both cases nothing is stored,
    pdf_processed stays absent, and the next run tries the whole
    processing again. *)
Theorem X8_failed_upload_keeps_session {Chain : Type}
    (qa_run : Chain -> string -> Reply * Chain) (w : World Chain) fuel env :
  uploaded_file env = true ->
  pdf_processed (session w) = None ->
  let rw := run qa_run fuel env w in
  (forall e, save_outcome env = OpenFailed e \/ save_outcome env = WriteFailed e ->
   rw.1 = Stop /\ session rw.2 = session w
   /\ page rw.2 = [Error ("Error saving file: " +:+ e)])
  /\ (save_outcome env = Saved -> index_outcome env = None ->
      rw.1 = Raise IndexingError /\ session rw.2 = session w
      /\ page rw.2 = [Success "File uploaded and saved successfully!"]).
Proof.
  destruct env as [up sv ix ck rc], w as [s tf g pg]. simpl. intros -> Hpdf.
  unfold run, script, bind, upload_section, bind, get_session, set_temp_file, emit,
    stop, raise. simpl. rewrite (bool_decide_eq_true_2 _ Hpdf).
  split.
  - by intros e [-> | ->].
  - intros -> ->. done.
Qed.

Lemma X8_failed_upload_keeps_session_witness :
  let env := mkEnv (Chain:=list Reply) true (OpenFailed "[Errno 13] Permission denied")
               (Some demo_chain) None 0 in
  let rw := run scripted_run 10 env (new_world zero_rng) in
  rw.1 = Stop /\ session rw.2 = session (new_world zero_rng)
  /\ page rw.2 = [Error ("Error saving file: " +:+ "[Errno 13] Permission denied")].
Proof.
  intros env.
  assert (H1 : uploaded_file env = true) by reflexivity.
  assert (H2 : pdf_processed (session (new_world (Chain:=list Reply) zero_rng)) = None)
    by reflexivity.
  assert (H3 : save_outcome env = OpenFailed "[Errno 13] Permission denied"
               \/ save_outcome env = WriteFailed "[Errno 13] Permission denied")
    by (left; reflexivity).
  exact (proj1 (X8_failed_upload_keeps_session scripted_run (new_world zero_rng) 10 env
                  H1 H2) "[Errno 13] Permission denied" H3).
Defined.

(** X9: a run that ends normally leaves no temporary file: the clean-up of
    lines 197-198 is the last thing every such run does, whether the file
    was written in this run or left behind by an earlier one. *)
Theorem X9_normal_end_removes_temp_file {Chain : Type}
    (qa_run : Chain -> string -> Reply * Chain) (w : World Chain) fuel env :
  (run qa_run fuel env w).1 = Ok tt ->
  temp_file (run qa_run fuel env w).2 = false.
Proof.
  destruct (run qa_run fuel env w) as [r w'] eqn:Hrun. simpl. intros ->.
  by eapply run_Ok_cleans.
Qed.

(** The indexing fails in a first run, which leaves the file; the second
    run processes the document and removes it. *)
Lemma X9_normal_end_removes_temp_file_witness :
  let w := (run scripted_run 10 (mkEnv true Saved None None 0) (new_world zero_rng)).2 in
  temp_file w = true
  /\ temp_file (run scripted_run 10 (upload demo_chain) w).2 = false.
Proof.
  intros w. split; [reflexivity|].
  assert (H1 : (run scripted_run 10 (upload demo_chain) w).1 = Ok tt)
    by (vm_compute; reflexivity).
  exact (X9_normal_end_removes_temp_file scripted_run w 10 (upload demo_chain) H1).
Defined.

(** X10: once the quiz is in the session the chain is never called or
    replaced again: every run, whatever it is caused by, leaves qa_chain
    as it is. *)
Theorem X10_chain_untouched_after_generation {Chain : Type}
    (qa_run : Chain -> string -> Reply * Chain) (w : World Chain) qs fuel env :
  reachable qa_run w ->
  questions (session w) = Some qs ->
  qa_chain (session (run qa_run fuel env w).2) = qa_chain (session w)
  /\ pdf_processed (session (run qa_run fuel env w).2) = Some true.
Proof.
  intros Hw Hqs. apply (reachable_session_inv qa_run) in Hw as [_ Hw].
  rewrite Hqs in Hw. destruct Hw as (Hpdf & i & n & Hi & Hn & _).
  destruct (run qa_run fuel env w) as [r w'] eqn:Hrun. cbn [snd].
  by destruct (run_with_quiz _ _ _ _ _ _ _ _ _ Hpdf Hqs Hi Hn Hrun) as (? & ? & _).
Qed.

Lemma X10_chain_untouched_after_generation_witness :
  qa_chain (session (run scripted_run 10 (click (KSubmit 0) 3) demo_quiz).2)
  = qa_chain (session demo_quiz)
  /\ pdf_processed (session (run scripted_run 10 (click (KSubmit 0) 3) demo_quiz).2)
     = Some true.
Proof.
  assert (H1 : reachable scripted_run demo_quiz)
    by apply reachable_runs, reachable_new.
  assert (H2 : questions (session demo_quiz) = Some demo_questions)
    by (vm_compute; reflexivity).
  exact (X10_chain_untouched_after_generation scripted_run demo_quiz demo_questions 10
           (click (KSubmit 0) 3) H1 H2).
Defined.

(** ** The replies a question consumes *)

Lemma scripted_loop_trace fuel question options script opts rest :
  distractor_loop scripted_run fuel question options script = (Ok opts, rest) ->
  exists used,
    script = map Answer used ++ rest /\ length used <= fuel
    /\ length opts <= length options + length used
    /\ forall o, o ∈ opts -> o ∈ options \/ o ∈ used.
Proof.
  revert options script. induction fuel as [|fuel IH]; intros options script Hloop.
  - simpl in Hloop. case_bool_decide; simplify_eq.
    exists []. simpl. split_and!; auto; lia.
  - cbn [distractor_loop] in Hloop. case_bool_decide.
    + destruct script as [|[t|] script]; simpl in Hloop; try done.
      destruct (accepted options t).
      * apply IH in Hloop as (used & -> & Hlen & Hopts & Hin).
        exists (t :: used). simpl. rewrite length_app in Hopts. simpl in Hopts.
        split_and!; [done|lia|lia|].
        intros o Ho. destruct (Hin o Ho) as [Ho'|Ho']; [|right; by right].
        apply elem_of_app in Ho' as [?|Ho']; [by left|].
        apply list_elem_of_singleton in Ho' as ->. right. left.
      * apply IH in Hloop as (used & -> & Hlen & Hopts & Hin).
        exists (t :: used). simpl. split_and!; [done|lia|lia|].
        intros o Ho. destruct (Hin o Ho); [by left|right; by right].
    + simplify_eq. exists []. simpl. split_and!; auto; lia.
Qed.

(** X11: on a chain that replays a list of replies, [generate_mcq] consumes
    the replies in order from the front, at least 3 and at most [fuel] of
    them, and leaves the rest for the next question; every option it
    returns is the correct answer or the unchanged text of one of the
    replies it consumed. *)
Theorem X11_options_come_from_replies fuel question correct_answer script g opts rest g' :
  generate_mcq scripted_run fuel question correct_answer script g = (Ok opts, rest, g') ->
  exists used,
    script = map Answer used ++ rest
    /\ 3 <= length used <= fuel
    /\ forall o, o ∈ opts -> o = correct_answer \/ o ∈ used.
Proof.
  intros H. destruct (generate_mcq_Ok _ _ _ _ _ _ _ _ _ H) as (options & Hloop & Hp).
  destruct (distractor_loop_Ok scripted_run fuel question [correct_answer] script
              options rest) as (added & _ & H4 & _);
    [simpl; lia|apply NoDup_singleton|done|].
  apply scripted_loop_trace in Hloop as (used & Hs & Hlen & Hopts & Hin).
  exists used. simpl in Hopts. split_and!; [done|lia|done|].
  intros o Ho. rewrite Hp in Ho. destruct (Hin o Ho) as [Ho'|]; [|by right].
  left. by apply list_elem_of_singleton in Ho'.
Qed.

Lemma X11_options_come_from_replies_witness :
  exists used,
    [Answer "Paris"; Answer "Paris"; Answer "London"; Answer "  ";
     Answer "Berlin"; Answer "Rome"; Answer "Oslo"]
    = map Answer used ++ [Answer "Oslo"]
    /\ 3 <= length used <= 10
    /\ forall o, o ∈ ["London"; "Berlin"; "Rome"; "Paris"] -> o = "Paris" \/ o ∈ used.
Proof.
  assert (H : generate_mcq scripted_run 10 "Capital of France?" "Paris"
                [Answer "Paris"; Answer "Paris"; Answer "London"; Answer "  ";
                 Answer "Berlin"; Answer "Rome"; Answer "Oslo"] zero_rng
              = (Ok ["London"; "Berlin"; "Rome"; "Paris"], [Answer "Oslo"], zero_rng))
    by reflexivity.
  exact (X11_options_come_from_replies 10 "Capital of France?" "Paris" _ zero_rng
           _ _ zero_rng H).
Defined.

(** ** Smaller facts about uploads, the shuffle and repeated clicks *)

(** X13: the document is processed once per session.  Once pdf_processed
    is stored, a run does not look at the uploaded file at all: whether a
    file is present, whether it could be saved and whether it could be
    indexed make no difference to the run, so uploading another document
    later has no effect. *)
Theorem X13_upload_ignored_once_processed {Chain : Type}
    (qa_run : Chain -> string -> Reply * Chain) (w : World Chain) fuel env up sv ix :
  pdf_processed (session w) <> None ->
  run qa_run fuel env w
  = run qa_run fuel (mkEnv up sv ix (clicked env) (radio_choice env)) w.
Proof.
  intros Hpdf. unfold run, script, bind.
  rewrite !upload_section_skip by done. by destruct env.
Qed.

Lemma X13_upload_ignored_once_processed_witness :
  run scripted_run 10 (click (KNext 0) 0) demo_quiz
  = run scripted_run 10 (mkEnv true (WriteFailed "disk full")
                           (Some [Answer "other document"])
                           (clicked (click (Chain:=list Reply) (KNext 0) 0))
                           (radio_choice (click (Chain:=list Reply) (KNext 0) 0)))
      demo_quiz.
Proof.
  assert (H1 : pdf_processed (session demo_quiz) <> None)
    by (vm_compute; discriminate).
  exact (X13_upload_ignored_once_processed scripted_run demo_quiz 10 (click (KNext 0) 0)
           true (WriteFailed "disk full") (Some [Answer "other document"]) H1).
Defined.

(** Draws that send the first element of a list of four to position [p]. *)
Definition draws_for (p : nat) : Rng :=
  fun k => nth k (match p with
                  | 0 => [3; 2; 1]
                  | 1 => [3; 2; 0]
                  | 2 => [3; 0; 1]
                  | _ => [0; 0; 0]
                  end) 0.

(** X14: the shuffle of line 137 can put the correct answer, which enters
    the list first, at each of the four positions: for every position
    there are draws of the generator that send it there. *)
Theorem X14_shuffle_reaches_every_position (x : list string) (p : nat) :
  length x = 4 -> p < 4 ->
  (shuffle x (draws_for p)).1 !! p = x !! 0.
Proof.
  intros Hx Hp.
  destruct x as [|a [|b [|c [|d [|e x]]]]]; try done.
  destruct p as [|[|[|[|p]]]]; try lia; reflexivity.
Qed.

Lemma X14_shuffle_reaches_every_position_witness :
  (shuffle ["Paris"; "London"; "Berlin"; "Rome"] (draws_for 1)).1 !! 1
  = ["Paris"; "London"; "Berlin"; "Rome"] !! 0.
Proof.
  assert (H1 : length ["Paris"; "London"; "Berlin"; "Rome"] = 4) by reflexivity.
  assert (H2 : 1 < 4) by lia.
  exact (X14_shuffle_reaches_every_position ["Paris"; "London"; "Berlin"; "Rome"] 1 H1 H2).
Defined.

(** X15: the score is not bounded by the number of questions.  Over an
    open question, [m] clicks on Submit with the correct option selected
    add [m] to the score and leave the position and the questions as they
    are. *)
Theorem X15_repeated_submission_adds_each_time {Chain : Type}
    (qa_run : Chain -> string -> Reply * Chain)
    (w : World Chain) qs i n question options correct_answer fuel env m :
  pdf_processed (session w) = Some true ->
  questions (session w) = Some qs ->
  current_question (session w) = Some i ->
  score (session w) = Some n ->
  qs !! i = Some (question, options, correct_answer) ->
  clicked env = Some (KSubmit i) ->
  options !! radio_choice env = Some correct_answer ->
  let w' := runs qa_run fuel (replicate m env) w in
  score (session w') = Some (n + Z.of_nat m)%Z
  /\ current_question (session w') = Some i
  /\ questions (session w') = Some qs.
Proof.
  intros Hpdf Hqs Hi Hn Hq Hck Hsel. simpl.
  revert w n Hpdf Hqs Hi Hn. induction m as [|m IH]; intros w n Hpdf Hqs Hi Hn.
  - simpl. rewrite Z.add_0_r. done.
  - cbn [replicate runs].
    destruct (run qa_run fuel env w) as [r w1] eqn:Hrun. cbn [snd].
    destruct (run_with_quiz _ _ _ _ _ _ _ _ _ Hpdf Hqs Hi Hn Hrun)
      as (Hp1 & _ & Hq1 & Hc1 & Hs1 & _).
    unfold advances, scores, Question in *. rewrite Hq, Hck in *.
    rewrite !bool_decide_eq_true_2 in Hs1 by done.
    rewrite (bool_decide_eq_false_2 (Some (KSubmit i) = Some (KNext i))) in Hc1 by done.
    rewrite andb_false_r in Hc1. simpl in Hs1.
    destruct (IH w1 (n + 1)%Z Hp1 Hq1 Hc1 Hs1) as (H1 & H2 & H3).
    split_and!; try done. rewrite H1. f_equal. lia.
Qed.

Lemma X15_repeated_submission_adds_each_time_witness :
  let w' := runs scripted_run 10 (replicate 6 (click (KSubmit 0) 3)) demo_quiz in
  score (session w') = Some (0 + Z.of_nat 6)%Z
  /\ current_question (session w') = Some 0
  /\ questions (session w') = Some demo_questions.
Proof.
  assert (H1 : pdf_processed (session demo_quiz) = Some true) by (vm_compute; reflexivity).
  assert (H2 : questions (session demo_quiz) = Some demo_questions)
    by (vm_compute; reflexivity).
  assert (H3 : current_question (session demo_quiz) = Some 0) by (vm_compute; reflexivity).
  assert (H4 : score (session demo_quiz) = Some 0%Z) by (vm_compute; reflexivity).
  assert (H5 : demo_questions !! 0 = Some ("Q1?", ["x"; "y"; "z"; "A1"], "A1"))
    by reflexivity.
  assert (H6 : clicked (click (Chain:=list Reply) (KSubmit 0) 3) = Some (KSubmit 0))
    by reflexivity.
  assert (H7 : ["x"; "y"; "z"; "A1"] !! radio_choice (click (Chain:=list Reply) (KSubmit 0) 3)
               = Some "A1") by reflexivity.
  exact (X15_repeated_submission_adds_each_time scripted_run demo_quiz demo_questions 0
           0%Z "Q1?" ["x"; "y"; "z"; "A1"] "A1" 10 (click (KSubmit 0) 3) 6
           H1 H2 H3 H4 H5 H6 H7).
Defined.

(** ** The score line at the end of the quiz *)

(** [h] hundredths as text with two decimals. *)
Definition two_decimals (h : Z) : string :=
  pretty (h / 100)%Z +:+ "."
  +:+ (if (h mod 100 <? 10)%Z then "0" else "") +:+ pretty (h mod 100)%Z.

(** [h] is the integer nearest to [10000 * n / total], and the even one
    when two integers are equally near: [h] hundredths is [100 * n / total]
    rounded to two decimals. *)
Definition nearest_hundredths (h n : Z) (total : nat) : Prop :=
  (2 * Z.abs (10000 * n - h * Z.of_nat total) <= Z.of_nat total)%Z
  /\ ((2 * Z.abs (10000 * n - h * Z.of_nat total))%Z = Z.of_nat total ->
      Z.even h = true).

(** The check of one entry of the table below: the line the script writes
    for score [k] over [total] questions is the one with the nearest
    hundredths. *)
Definition score_line_ok (total k : nat) : bool :=
  let n := Z.of_nat k in
  let t := Z.of_nat total in
  let h := ((20000 * n + t) / (2 * t))%Z in
  let d := (2 * Z.abs (10000 * n - h * t))%Z in
  match score_percentage n total with
  | Some pct =>
      bool_decide (score_line pct
                   = "<div class='centered-text' style='font-weight:bold;'>Your Score: "
                     +:+ two_decimals h +:+ "%</div>")
      && (d <=? t)%Z && implb (d =? t)%Z (Z.even h)
  | None => false
  end.

Lemma score_line_table :
  forallb (fun total => forallb (score_line_ok total) (seq 0 1001)) [1; 2; 3; 4] = true.
Proof. vm_compute. reflexivity. Qed.

Lemma score_line_rounded (total : nat) (n : Z) :
  1 <= total <= 4 -> (0 <= n <= 1000)%Z ->
  exists pct h,
    score_percentage n total = Some pct
    /\ nearest_hundredths h n total
    /\ score_line pct
       = "<div class='centered-text' style='font-weight:bold;'>Your Score: "
         +:+ two_decimals h +:+ "%</div>".
Proof.
  intros Ht Hn. pose proof score_line_table as H.
  rewrite forallb_forall in H.
  assert (Hin : In total [1; 2; 3; 4]) by (simpl; lia).
  specialize (H total Hin). rewrite forallb_forall in H.
  specialize (H (Z.to_nat n) ltac:(apply in_seq; lia)). unfold score_line_ok in H.
  rewrite Z2Nat.id in H by lia.
  destruct (score_percentage n total) as [pct|]; [|done].
  apply andb_true_iff in H as [[H1 H2]%andb_true_iff H3].
  apply bool_decide_eq_true in H1. apply Z.leb_le in H2.
  eexists pct, _. split_and!; [done| |exact H1].
  split; [done|]. intros Heq. apply Z.eqb_eq in Heq. rewrite Heq in H3. done.
Qed.

(** C6: with 4 questions, the position at the end and a score between 0 and
    4, the percentage computed is exactly 100 * score / 4, and the third
    element of the page reports it with two decimals: the line reads
    "Your Score: " followed by 100 * score / 4, ".00" and "%" (75.00 for a
    score of 3). *)
Theorem C6_final_percentage_exact {Chain : Type}
    (qa_run : Chain -> string -> Reply * Chain)
    fuel env (w : World Chain) qs n :
  pdf_processed (session w) = Some true ->
  questions (session w) = Some qs ->
  length qs = 4 ->
  current_question (session w) = Some 4 ->
  score (session w) = Some n ->
  (0 <= n <= 4)%Z ->
  exists pct,
    score_percentage n (length qs) = Some pct
    /\ float_is pct (100 * n) (Z.of_nat (length qs))
    /\ format_2f pct = pretty (100 * n / 4)%Z +:+ ".00"
    /\ (n = 3%Z -> format_2f pct = "75.00")
    /\ Markdown (score_line pct) ∈ page (snd (run qa_run fuel env w))
    /\ (run qa_run fuel env w).1 = Ok tt
    /\ page (run qa_run fuel env w).2 !! 2
       = Some (Markdown
                 ("<div class='centered-text' style='font-weight:bold;'>Your Score: "
                  +:+ pretty (100 * n / 4)%Z +:+ ".00%</div>"))
    /\ (n = 3%Z ->
        page (run qa_run fuel env w).2 !! 2
        = Some (Markdown
                  "<div class='centered-text' style='font-weight:bold;'>Your Score: 75.00%</div>")).
Proof.
  intros Hpdf Hqs Hlen Hi Hn Hrange.
  destruct (score_percentage_spec n (length qs)) as [[H0 _]|[_ [pct Hp]]]; [lia|].
  destruct (run_page_finished qa_run fuel env w qs 4 n pct) as [Hr Hpage];
    try done; [lia|].
  exists pct. rewrite Hr, Hpage. rewrite Hlen in *.
  assert (n = 0 \/ n = 1 \/ n = 2 \/ n = 3 \/ n = 4)%Z
    as [->|[->|[->|[->| ->]]]] by lia;
    vm_compute in Hp; injection Hp as <-;
    (split; [vm_compute; reflexivity|]);
    (split; [vm_compute; reflexivity|]);
    (split; [vm_compute; reflexivity|]);
    (split; [intros; try lia; vm_compute; reflexivity|]);
    (split; [simpl; rewrite !elem_of_cons; auto|]);
    (split; [done|]);
    (split; [vm_compute; reflexivity|]);
    intros; try lia; vm_compute; reflexivity.
Qed.

Lemma C6_final_percentage_exact_witness :
  exists pct,
    score_percentage 3 (length demo_questions) = Some pct
    /\ float_is pct (100 * 3) (Z.of_nat (length demo_questions))
    /\ format_2f pct = pretty (100 * 3 / 4)%Z +:+ ".00"
    /\ (3%Z = 3%Z -> format_2f pct = "75.00")
    /\ Markdown (score_line pct)
       ∈ page (snd (run scripted_run 10 (choose 0) demo_finished))
    /\ (run scripted_run 10 (choose 0) demo_finished).1 = Ok tt
    /\ page (run scripted_run 10 (choose 0) demo_finished).2 !! 2
       = Some (Markdown
                 ("<div class='centered-text' style='font-weight:bold;'>Your Score: "
                  +:+ pretty (100 * 3 / 4)%Z +:+ ".00%</div>"))
    /\ (3%Z = 3%Z ->
        page (run scripted_run 10 (choose 0) demo_finished).2 !! 2
        = Some (Markdown
                  "<div class='centered-text' style='font-weight:bold;'>Your Score: 75.00%</div>")).
Proof.
  assert (H1 : pdf_processed (session demo_finished) = Some true)
    by (vm_compute; reflexivity).
  assert (H2 : questions (session demo_finished) = Some demo_questions)
    by (vm_compute; reflexivity).
  assert (H3 : length demo_questions = 4) by reflexivity.
  assert (H4 : current_question (session demo_finished) = Some 4)
    by (vm_compute; reflexivity).
  assert (H5 : score (session demo_finished) = Some 3%Z) by (vm_compute; reflexivity).
  assert (H6 : (0 <= 3 <= 4)%Z) by lia.
  exact (C6_final_percentage_exact scripted_run 10 (choose 0) demo_finished
           demo_questions 3 H1 H2 H3 H4 H5 H6).
Defined.

(** X6: at the end of a quiz that has questions, with a score of at most
    1000, the run ends normally and its page is: the Generate button,
    "Quiz Completed!", the line "Your Score: p%" where p is
    100 * score / total rounded to two decimals, the review heading, and
    then for every stored question, in the order of generation, its number
    and text followed by its correct answer.  The options are not shown
    again. *)
Theorem X6_review_lists_every_question {Chain : Type}
    (qa_run : Chain -> string -> Reply * Chain)
    (w : World Chain) qs n fuel env :
  reachable qa_run w ->
  questions (session w) = Some qs ->
  current_question (session w) = Some (length qs) ->
  score (session w) = Some n ->
  qs <> [] ->
  (n <= 1000)%Z ->
  let rw := run qa_run fuel env w in
  rw.1 = Ok tt
  /\ length (page rw.2) = 4 + 2 * length qs
  /\ page rw.2 !! 0 = Some (Button KGenerate)
  /\ page rw.2 !! 1 = Some (Markdown "<div class='centered-text'>Quiz Completed!</div>")
  /\ (exists h,
        nearest_hundredths h n (length qs)
        /\ page rw.2 !! 2
           = Some (Markdown
                     ("<div class='centered-text' style='font-weight:bold;'>Your Score: "
                      +:+ two_decimals h +:+ "%</div>")))
  /\ page rw.2 !! 3 = Some (Markdown "<div class='centered-text'>Review:</div>")
  /\ forall k question options correct_answer,
       qs !! k = Some (question, options, correct_answer) ->
       page rw.2 !! (4 + 2 * k)
       = Some (Write ("**Question " +:+ pretty (k + 1) +:+ ":** " +:+ question))
       /\ page rw.2 !! (4 + 2 * k + 1)
          = Some (Write ("**Correct Answer:** " +:+ correct_answer)).
Proof.
  intros Hw Hqs Hi Hn Hne Hle rw. subst rw.
  apply (reachable_session_inv qa_run) in Hw as [_ Hw].
  rewrite Hqs in Hw. destruct Hw as (Hpdf & i' & n' & _ & Hn' & Hlen & Hn0 & _).
  assert (n' = n) as -> by congruence.
  assert (0 < length qs) by (destruct qs; [done|simpl; lia]).
  destruct (score_line_rounded (length qs) n) as (pct & h & Hp & Hh & Hline);
    [lia|lia|].
  destruct (run_page_finished qa_run fuel env w qs (length qs) n pct)
    as [Hr Hpage]; try done.
  rewrite Hr, Hpage. split_and!; try done.
  - rewrite length_app, review_lines_length. done.
  - exists h. split; [done|]. simpl. by rewrite Hline.
  - intros k question options correct_answer Hk.
    destruct (review_lines_lookup 0 qs k _ _ _ Hk) as [H1 H2].
    split.
    + rewrite lookup_app_r by (simpl; lia).
      replace (4 + 2 * k - length _) with (2 * k) by (simpl; lia). done.
    + rewrite lookup_app_r by (simpl; lia).
      replace (4 + 2 * k + 1 - length _) with (2 * k + 1) by (simpl; lia). done.
Qed.

Lemma X6_review_lists_every_question_witness :
  let rw := run scripted_run 10 (choose 0) demo_finished in
  rw.1 = Ok tt
  /\ length (page rw.2) = 4 + 2 * length demo_questions
  /\ page rw.2 !! 0 = Some (Button KGenerate)
  /\ page rw.2 !! 1 = Some (Markdown "<div class='centered-text'>Quiz Completed!</div>")
  /\ (exists h,
        nearest_hundredths h 3 (length demo_questions)
        /\ page rw.2 !! 2
           = Some (Markdown
                     ("<div class='centered-text' style='font-weight:bold;'>Your Score: "
                      +:+ two_decimals h +:+ "%</div>")))
  /\ page rw.2 !! 3 = Some (Markdown "<div class='centered-text'>Review:</div>")
  /\ forall k question options correct_answer,
       demo_questions !! k = Some (question, options, correct_answer) ->
       page rw.2 !! (4 + 2 * k)
       = Some (Write ("**Question " +:+ pretty (k + 1) +:+ ":** " +:+ question))
       /\ page rw.2 !! (4 + 2 * k + 1)
          = Some (Write ("**Correct Answer:** " +:+ correct_answer)).
Proof.
  assert (H1 : reachable scripted_run demo_finished)
    by (apply reachable_runs, reachable_runs, reachable_new).
  assert (H2 : questions (session demo_finished) = Some demo_questions)
    by (vm_compute; reflexivity).
  assert (H3 : current_question (session demo_finished) = Some (length demo_questions))
    by (vm_compute; reflexivity).
  assert (H4 : score (session demo_finished) = Some 3%Z) by (vm_compute; reflexivity).
  assert (H5 : demo_questions <> []) by discriminate.
  assert (H6 : (3 <= 1000)%Z) by lia.
  exact (X6_review_lists_every_question scripted_run demo_finished demo_questions 3%Z
           10 (choose 0) H1 H2 H3 H4 H5 H6).
Defined.

(** X12: for every number of questions a session can hold (1 to 4, a quiz
    cut short included) and every score from 0 to 1000 (repeated
    submissions can take the score past the number of questions), the
    third element of the page at the end of the quiz reads "Your Score: ",
    then 100 * score / total rounded to the nearest hundredth (to the even
    one on a tie) and written with two decimals ([two_decimals], which is
    no part of the model of the script), then "%": the two roundings of
    the double arithmetic never show. *)
Theorem X12_percentage_text_correctly_rounded {Chain : Type}
    (qa_run : Chain -> string -> Reply * Chain)
    (w : World Chain) qs i n fuel env :
  pdf_processed (session w) = Some true ->
  questions (session w) = Some qs ->
  current_question (session w) = Some i ->
  score (session w) = Some n ->
  1 <= length qs <= 4 ->
  length qs <= i ->
  (0 <= n <= 1000)%Z ->
  exists h,
    nearest_hundredths h n (length qs)
    /\ page (run qa_run fuel env w).2 !! 2
       = Some (Markdown
                 ("<div class='centered-text' style='font-weight:bold;'>Your Score: "
                  +:+ two_decimals h +:+ "%</div>")).
Proof.
  intros Hpdf Hqs Hi Hn Hlen Hle Hrange.
  destruct (score_line_rounded (length qs) n) as (pct & h & Hp & Hh & Hline);
    [done|done|].
  destruct (run_page_finished qa_run fuel env w qs i n pct) as [_ Hpage]; try done.
  exists h. split; [done|]. rewrite Hpage. simpl. by rewrite Hline.
Qed.

(** A quiz cut short after three questions, two of them answered
    correctly: the page reads 66.67. *)
Definition demo_three : World (list Reply) :=
  runs scripted_run 10
    [upload (take 17 demo_chain); click KGenerate 0; click KGenerate 0;
     click (KSubmit 0) 3; click (KNext 0) 3; choose 3;
     click (KSubmit 1) 3; click (KNext 1) 3; choose 0;
     click (KNext 2) 0]
    (new_world zero_rng).

Lemma X12_percentage_text_correctly_rounded_witness :
  page (run scripted_run 10 (choose 0) demo_three).2 !! 2
  = Some (Markdown
            "<div class='centered-text' style='font-weight:bold;'>Your Score: 66.67%</div>")
  /\ exists h,
       nearest_hundredths h 2 3
       /\ page (run scripted_run 10 (choose 0) demo_three).2 !! 2
          = Some (Markdown
                    ("<div class='centered-text' style='font-weight:bold;'>Your Score: "
                     +:+ two_decimals h +:+ "%</div>")).
Proof.
  split; [vm_compute; reflexivity|].
  assert (H1 : pdf_processed (session demo_three) = Some true) by (vm_compute; reflexivity).
  assert (H2 : questions (session demo_three) = Some (take 3 demo_questions))
    by (vm_compute; reflexivity).
  assert (H3 : current_question (session demo_three) = Some 3) by (vm_compute; reflexivity).
  assert (H4 : score (session demo_three) = Some 2%Z) by (vm_compute; reflexivity).
  assert (H5 : 1 <= length (take 3 demo_questions) <= 4) by (simpl; lia).
  assert (H6 : length (take 3 demo_questions) <= 3) by (simpl; lia).
  assert (H7 : (0 <= 2 <= 1000)%Z) by lia.
  exact (X12_percentage_text_correctly_rounded scripted_run demo_three
           (take 3 demo_questions) 3 2%Z 10 (choose 0) H1 H2 H3 H4 H5 H6 H7).
Defined.
